(** * faceteer/converter: native JavaScript values <-> DynamoDB attribute values

    A shallow embedding of [src/types.ts] (typeOf), [src/set.ts] (DynamoDBSet)
    and the converter module (Converter.input / output / marshall /
    unmarshall with their private helpers).

    JavaScript values are one dynamically typed universe, so both the native
    side and the attribute side are terms of a single type [value]; an
    attribute such as [{S: "a"}] is the object [VObject (Some "Object")
    [("S", VString "a")]].  What the code asks of the host (number
    formatting and parsing) is gathered in the class [Host].

    Conventions of the model:
    - an object is its constructor name ([None] for a null-prototype object)
      and its own enumerable string-keyed properties in enumeration order;
      a prototype contributes its constructor only: inherited enumerable
      properties, accessors and symbols are not modelled, and own
      properties called [toString], [valueOf] or [length] give [Unmodelled]
      where the code reads them;
    - an own property [constructor] is read as the source reads it, and an
      assignment to the key [__proto__] creates no own property; a call
      that would return an object whose prototype was changed that way
      returns [Throw Unmodelled], since [value] has no such object;
    - strings are ASCII, so [String.length] is the JavaScript [length];
    - a call outside the modelled fragment of the host returns
      [Throw Unmodelled]; the modelled exceptions are the two errors the
      repository raises itself and the host's [TypeError]. *)

From Stdlib Require Import String Ascii List ZArith Bool Lia.
From Stdlib Require Import DecimalString DecimalZ.
Import ListNotations.
Open Scope string_scope.
Set Warnings "-register-all".

(** ** Host numbers *)

Class Host := {
  number : Type;
  (** [Number.prototype.toString] *)
  number_toString : number -> string;
  (** [Number(s)] for a string [s] *)
  Number_of_string : string -> number;
  (** the number denoted by an integer literal *)
  number_of_Z : Z -> number;
  NaN : number;
  (** [false] exactly for [0], [-0] and [NaN] *)
  number_truthy : number -> bool;
  (** neither [NaN] nor an infinity *)
  number_finite : number -> bool;
  (** the number [-0], which prints as ["0"] *)
  number_negative_zero : number -> bool
}.

(** What the ECMAScript specification promises of the host, where a proof
    needs it: a finite number other than [-0] is read back from its printed
    form, and no number prints as the empty string. *)
Class HostLaws (H : Host) : Prop := {
  Number_toString_inv :
    forall n, number_finite n = true -> number_negative_zero n = false ->
              Number_of_string (number_toString n) = n;
  number_toString_nonempty :
    forall n, number_toString n <> ""
}.

(** ** Data model *)

(** The constructor names [isBinary] recognises (src/types.ts). *)
Inductive BinaryType :=
| Buffer | File | Blob | ArrayBuffer | DataView
| Int8Array | Uint8Array | Uint8ClampedArray
| Int16Array | Uint16Array | Int32Array | Uint32Array
| Float32Array | Float64Array.

Inductive DateFormat := iso | unix.

(** src/converter-options.ts; an absent flag is [false], an absent
    [dateFormat] is [iso]. *)
Record ConverterOptions := {
  convertEmptyValues : bool;
  wrapNumbers : bool;
  dateFormat : DateFormat
}.

(** [options || {}] *)
Definition default_options : ConverterOptions :=
  {| convertEmptyValues := false; wrapNumbers := false; dateFormat := iso |}.

Section Model.
Context {H : Host}.

(** A [Date] is observed through the two projections the converter calls.
    An invalid date ([new Date(NaN)]) has no ISO string, [toISOString]
    throws a [RangeError] on it, and its unix time is [NaN]. *)
Record Date := {
  valid : bool;
  toISOString : string;
  getUnixTime : number
}.

Inductive value :=
| VUndefined
| VNull
| VBool (b : bool)
| VNumber (n : number)
| VString (s : string)
| VDate (d : Date)
(** a binary container and its elements (bytes, or the entries of a typed
    array) *)
| VBinary (t : BinaryType) (elems : list Z)
| VFunction
(** an instance of the converter's private class [NumberValue] with its
    field [value] *)
| VNumberValue (v : value)
| VArray (l : list value)
| VObject (ctor : option string) (props : list (string * value)).

(** Induction over [value] that reaches into arrays and property lists. *)
Section value_induction.
Variable P : value -> Prop.
Hypothesis HUndefined : P VUndefined.
Hypothesis HNull : P VNull.
Hypothesis HBool : forall b, P (VBool b).
Hypothesis HNumber : forall n, P (VNumber n).
Hypothesis HString : forall s, P (VString s).
Hypothesis HDate : forall d, P (VDate d).
Hypothesis HBinary : forall t e, P (VBinary t e).
Hypothesis HFunction : P VFunction.
Hypothesis HNumberValue : forall v, P v -> P (VNumberValue v).
Hypothesis HArray : forall l, Forall P l -> P (VArray l).
Hypothesis HObject :
  forall c props, Forall (fun kv => P (snd kv)) props -> P (VObject c props).

Fixpoint value_rect' (v : value) : P v :=
  match v with
  | VUndefined => HUndefined
  | VNull => HNull
  | VBool b => HBool b
  | VNumber n => HNumber n
  | VString s => HString s
  | VDate d => HDate d
  | VBinary t e => HBinary t e
  | VFunction => HFunction
  | VNumberValue v => HNumberValue v (value_rect' v)
  | VArray l =>
      HArray l ((fix go (l : list value) : Forall P l :=
                   match l with
                   | [] => Forall_nil _
                   | x :: r => Forall_cons _ (value_rect' x) (go r)
                   end) l)
  | VObject c props =>
      HObject c props
        ((fix go (l : list (string * value))
            : Forall (fun kv => P (snd kv)) l :=
            match l with
            | [] => Forall_nil _
            | kv :: r => Forall_cons _ (value_rect' (snd kv)) (go r)
            end) props)
  end.
End value_induction.

(** ** Outcomes *)

Inductive error :=
(** [Unable to convert property to a Dynamo DB attribute with type ${type}] *)
| UnableToConvert (type : value)
(** [Sets can contain string, number, or binary values] *)
| InvalidSet
(** a [TypeError] of the host (calling or reading through [undefined]) *)
| TypeError
(** the [RangeError] of [toISOString] on an invalid date *)
| RangeError
(** the call leaves the modelled fragment of the host *)
| Unmodelled.

Inductive result (A : Type) :=
| Ok (a : A)
| Throw (e : error).
Arguments Ok {A} a.
Arguments Throw {A} e.

Definition bind {A B} (r : result A) (k : A -> result B) : result B :=
  match r with
  | Ok a => k a
  | Throw e => Throw e
  end.

Notation "x <- r ;; k" := (bind r (fun x => k))
  (at level 61, r at next level, right associativity).

(** A loop that pushes [f x] for every element in order and stops at the
    first exception. *)
Definition mapM {A B} (f : A -> result B) : list A -> result (list B) :=
  fix go l :=
    match l with
    | [] => Ok []
    | x :: r => y <- f x ;; ys <- go r ;; Ok (y :: ys)
    end.

(** ** Objects *)

(** [obj[k]] on own properties *)
Fixpoint lookup (k : string) (props : list (string * value)) : option value :=
  match props with
  | [] => None
  | (k', v) :: r => if String.eqb k k' then Some v else lookup k r
  end.

(** [obj[k] = v] on an own property: overwrite in place, or add as the last
    property *)
Fixpoint set_own (k : string) (v : value) (props : list (string * value))
  : list (string * value) :=
  match props with
  | [] => [(k, v)]
  | (k', v') :: r =>
      if String.eqb k k' then (k, v) :: r else (k', v') :: set_own k v r
  end.

(** The own properties after [map[k] = v] on an object made by an object
    literal.  The key [__proto__] is the accessor of [Object.prototype]: the
    assignment runs its setter and creates no own property. *)
Definition assign (k : string) (v : value) (props : list (string * value))
  : list (string * value) :=
  if String.eqb k "__proto__" then props else set_own k v props.

(** whether [map[k] = v] changes the prototype of [map]: the setter of
    [__proto__] acts on an object or [null] and ignores a primitive *)
Definition sets_prototype (k : string) (v : value) : bool :=
  String.eqb k "__proto__" &&
  match v with
  | VUndefined | VBool _ | VNumber _ | VString _ => false
  | _ => true
  end.

(** property read [data.k]; reading through [undefined] or [null] is the
    caller's business *)
Definition get (k : string) (data : value) : value :=
  match data with
  | VObject _ props =>
      match lookup k props with Some v => v | None => VUndefined end
  | _ => VUndefined
  end.

Definition has (k : string) (data : value) : bool :=
  match data with
  | VObject _ props =>
      match lookup k props with Some _ => true | None => false end
  | _ => false
  end.

(** an object literal *)
Definition obj (props : list (string * value)) : value :=
  VObject (Some "Object") props.

(** [v === 'name'] *)
Definition is_str (v : value) (name : string) : bool :=
  match v with
  | VString s => String.eqb s name
  | _ => false
  end.

(** [!!v] *)
Definition truthy (v : value) : bool :=
  match v with
  | VUndefined | VNull => false
  | VBool b => b
  | VNumber n => number_truthy n
  | VString s => negb (String.eqb s "")
  | _ => true
  end.

(** ** Coercions of the host *)

Definition is_primitive (v : value) : bool :=
  match v with
  | VUndefined | VNull | VBool _ | VNumber _ | VString _ => true
  | _ => false
  end.

(** [`${v}`] and [v + '']; [None] where the text depends on host details
    that are not modelled (dates, binary containers, functions, instances of
    classes, objects that override [toString]) and where the coercion
    throws (null-prototype objects). *)
Fixpoint to_string (v : value) : option string :=
  match v with
  | VUndefined => Some "undefined"
  | VNull => Some "null"
  | VBool true => Some "true"
  | VBool false => Some "false"
  | VNumber n => Some (number_toString n)
  | VString s => Some s
  | VDate _ | VBinary _ _ | VFunction => None
  | VNumberValue w => if is_primitive w then to_string w else None
  | VArray l =>
      (* Array.prototype.join: null and undefined print as nothing *)
      (fix join (l : list value) : option string :=
         match l with
         | [] => Some ""
         | x :: r =>
             let sx := match x with
                       | VUndefined | VNull => Some ""
                       | _ => to_string x
                       end in
             let rest := join r in
             match sx with
             | None => None
             | Some a =>
                 match r with
                 | [] => Some a
                 | _ :: _ =>
                     match rest with
                     | Some b => Some (a ++ "," ++ b)
                     | None => None
                     end
                 end
             end
         end) l
  | VObject (Some "Object") props =>
      match lookup "toString" props, lookup "valueOf" props with
      | None, None => Some "[object Object]"
      | _, _ => None
      end
  | VObject _ _ => None
  end.

(** the same as an outcome: a null-prototype object without [toString] and
    [valueOf] makes the coercion throw a [TypeError] *)
Definition to_string_r (v : value) : result string :=
  match to_string v with
  | Some s => Ok s
  | None =>
      match v with
      | VObject None props =>
          match lookup "toString" props, lookup "valueOf" props with
          | None, None => Throw TypeError
          | _, _ => Throw Unmodelled
          end
      | _ => Throw Unmodelled
      end
  end.

(** [Number(v)] *)
Definition to_number (v : value) : result number :=
  match v with
  | VUndefined => Ok NaN
  | VNull => Ok (number_of_Z 0)
  | VBool b => Ok (number_of_Z (if b then 1 else 0))
  | VNumber n => Ok n
  | VString s => Ok (Number_of_string s)
  | VDate _ => Throw Unmodelled
  | VNumberValue (VString s) => Ok (Number_of_string s)
  | VNumberValue _ => Throw Unmodelled
  | _ => s <- to_string_r v ;; Ok (Number_of_string s)
  end.

(** the method call [data.toString()] *)
Definition call_toString (data : value) : result value :=
  match data with
  | VUndefined | VNull => Throw TypeError
  | VNumberValue w => Ok w
  | _ => s <- to_string_r data ;; Ok (VString s)
  end.

(** which containers have a [length] (the others have [byteLength] or
    [size]) *)
Definition has_length (t : BinaryType) : bool :=
  match t with
  | File | Blob | ArrayBuffer | DataView => false
  | _ => true
  end.

(** [data.length === 0] *)
Definition length_is_0 (data : value) : result bool :=
  match data with
  | VUndefined | VNull => Throw TypeError
  | VString s => Ok (Nat.eqb (String.length s) 0)
  | VArray l => Ok (Nat.eqb (List.length l) 0)
  | VBinary t elems => Ok (has_length t && Nat.eqb (List.length elems) 0)
  | VFunction => Throw Unmodelled
  | VObject _ props =>
      match lookup "length" props with
      | None => Ok false
      | Some _ => Throw Unmodelled
      end
  | _ => Ok false
  end.

(** the elements visited by [for (i = 0; i < data.length; i++) data[i]] *)
Definition elements (data : value) : result (list value) :=
  match data with
  | VUndefined | VNull => Throw TypeError
  | VArray l => Ok l
  | VBool _ | VNumber _ | VDate _ | VNumberValue _ => Ok []
  | VObject _ props =>
      match lookup "length" props with
      | None => Ok []
      | Some _ => Throw Unmodelled
      end
  | _ => Throw Unmodelled
  end.

(** the pairs visited by [for (k in data) data[k]] *)
Definition entries (data : value) : result (list (string * value)) :=
  match data with
  | VObject _ props => Ok props
  | VUndefined | VNull | VBool _ | VNumber _ | VDate _ | VFunction => Ok []
  | _ => Throw Unmodelled
  end.

(** [v ?? d] *)
Definition nullish_or (v d : value) : value :=
  match v with
  | VUndefined | VNull => d
  | _ => v
  end.

(** ** src/types.ts *)

Definition binary_name (t : BinaryType) : string :=
  match t with
  | Buffer => "Buffer" | File => "File" | Blob => "Blob"
  | ArrayBuffer => "ArrayBuffer" | DataView => "DataView"
  | Int8Array => "Int8Array" | Uint8Array => "Uint8Array"
  | Uint8ClampedArray => "Uint8ClampedArray"
  | Int16Array => "Int16Array" | Uint16Array => "Uint16Array"
  | Int32Array => "Int32Array" | Uint32Array => "Uint32Array"
  | Float32Array => "Float32Array" | Float64Array => "Float64Array"
  end.

(** the list [types] of [isBinary] *)
Definition binary_names : list string :=
  ["Buffer"; "File"; "Blob"; "ArrayBuffer"; "DataView"; "Int8Array";
   "Uint8Array"; "Uint8ClampedArray"; "Int16Array"; "Uint16Array";
   "Int32Array"; "Uint32Array"; "Float32Array"; "Float64Array"].

(** the name of the constructor a value inherits from its prototype *)
Definition constructor_name (data : value) : option string :=
  match data with
  | VUndefined | VNull => None
  | VBool _ => Some "Boolean"
  | VNumber _ => Some "Number"
  | VString _ => Some "String"
  | VDate _ => Some "Date"
  | VBinary t _ => Some (binary_name t)
  | VFunction => Some "Function"
  | VNumberValue _ => Some "NumberValue"
  | VArray _ => Some "Array"
  | VObject c _ => c
  end.

(** whether a text contains [function], without which it cannot match the
    pattern [/^\s*function (.+)\(/] of [typeName] *)
Definition mentions_function (s : string) : bool :=
  match String.index 0 "function" s with
  | Some _ => true
  | None => false
  end.

(** [typeName(type)] for a value [type] found as an own property
    [constructor]: its own property [name] if it has one, else its
    [toString()], provided that text cannot match the pattern.  [None]
    where the model does not compute it (a function, a text that mentions
    [function], a value whose [toString()] is not modelled). *)
Definition typeName (type : value) : option value :=
  let printed v :=
    match to_string v with
    | Some s => if mentions_function s then None else Some (VString s)
    | None => None
    end in
  match type with
  | VFunction => None
  | VObject _ props =>
      match lookup "name" props with
      | Some n => Some n
      | None => printed type
      end
  | VNumberValue (VString s) => printed (VString s)
  | VNumberValue _ => None
  | _ => printed type
  end.

(** What [data.constructor] is to the classifier: absent or falsy, a
    constructor with its [typeName], or one whose [typeName] the model does
    not compute. *)
Inductive constructor_info :=
| NoConstructor
| TypeName (name : value)
| UnknownConstructor.

(** [data.constructor]: an own property [constructor] comes before the
    inherited one *)
Definition constructor_of (data : value) : constructor_info :=
  match data with
  | VObject c props =>
      match lookup "constructor" props with
      | Some v =>
          if truthy v then
            match typeName v with
            | Some n => TypeName n
            | None => UnknownConstructor
            end
          else NoConstructor
      | None =>
          match c with
          | Some c => TypeName (VString c)
          | None => NoConstructor
          end
      end
  | _ =>
      match constructor_name data with
      | Some c => TypeName (VString c)
      | None => NoConstructor
      end
  end.

(** whether the model computes [typeOf data] *)
Definition classified (data : value) : bool :=
  match constructor_of data with
  | UnknownConstructor => false
  | _ => true
  end.

Definition isBinary (data : value) : bool :=
  match data with
  | VBinary _ _ => true
  | _ =>
      match constructor_of data with
      | TypeName n => existsb (is_str n) binary_names
      | _ => false
      end
  end.

(** The classifier.  Its result is a JavaScript value: the marker
    [wrapperName], or the [name] of an own [constructor], is returned as it
    is found.  Where [classified data] is [false] there is no result in the
    model and [typeOf data] is [VUndefined]. *)
Definition typeOf (data : value) : value :=
  match data with
  | VDate _ => VString "Date"
  | VNull => VString "null"
  | VUndefined => VString "undefined"
  | _ =>
      if isBinary data then VString "Binary"
      else match constructor_of data with
           | TypeName n =>
               if truthy (get "wrapperName" data)
               then get "wrapperName" data
               else n
           | NoConstructor => VString "Object"
           | UnknownConstructor => VUndefined
           end
  end.

(** ** src/set.ts *)

(** the names every object literal inherits from [Object.prototype]; a
    lookup of one of them in a table written as an object literal finds the
    inherited member, which the model does not represent *)
Definition inherited_names : list string :=
  ["constructor"; "__proto__"; "hasOwnProperty"; "isPrototypeOf";
   "propertyIsEnumerable"; "toLocaleString"; "toString"; "valueOf";
   "__defineGetter__"; "__defineSetter__"; "__lookupGetter__";
   "__lookupSetter__"].

Definition memberTypeToSetType (key : string) : result value :=
  if String.eqb key "String" then Ok (VString "String")
  else if String.eqb key "Number" then Ok (VString "Number")
  else if String.eqb key "NumberValue" then Ok (VString "Number")
  else if String.eqb key "Binary" then Ok (VString "Binary")
  else if existsb (String.eqb key) inherited_names then Throw Unmodelled
  else Ok VUndefined.

(** The fields of a [DynamoDBSet] instance. *)
Record DynamoDBSet := {
  values : list value;
  wrapperName : string;
  type : value
}.

(** the instance as a [value] *)
Definition set_value (s : DynamoDBSet) : value :=
  VObject (Some "DynamoDBSet")
    [("values", VArray (values s));
     ("wrapperName", VString (wrapperName s));
     ("type", type s)].

(** [detectType]: reads [this.values[0]] and stores or throws *)
Definition detectType (this : DynamoDBSet) : result DynamoDBSet :=
  if negb (classified (nth 0 (values this) VUndefined)) then Throw Unmodelled
  else
    key <- to_string_r (typeOf (nth 0 (values this) VUndefined)) ;;
    found <- memberTypeToSetType key ;;
    let this := {| values := values this;
                   wrapperName := wrapperName this;
                   type := found |} in
    if negb (truthy (type this)) then Throw InvalidSet else Ok this.

(** [initialize]: [this.values.concat(...list)] builds a new array and the
    statement drops it; [this.values] is left as it was. *)
Definition initialize (this : DynamoDBSet) (list : list value)
  : result DynamoDBSet :=
  let _dropped := (values this ++ list)%list in
  detectType this.

(** [new DynamoDBSet(list)]: field initialisers, then the constructor body *)
Definition new_DynamoDBSet (list : list value) : result value :=
  let this := {| values := []; wrapperName := "Set"; type := VUndefined |} in
  this <- initialize this list ;;
  Ok (set_value this).

(** ** The converter module: native value to attribute *)

(** the object literal [{key: payload}] *)
Definition attr (key : string) (payload : value) : value :=
  obj [(key, payload)].

(** [{ NULL: true }], which is also what [this.input(null)] returns *)
Definition input_null : value := attr "NULL" (VBool true).

Definition is_undefined (v : value) : bool :=
  match v with VUndefined => true | _ => false end.

Definition formatDate (data : value) (options : ConverterOptions)
  : result value :=
  match dateFormat options, data with
  | unix, VDate d =>
      Ok (attr "S" (VString (number_toString
                               (if valid d then getUnixTime d else NaN))))
  | unix, _ => Throw Unmodelled
  | iso, VDate d =>
      if valid d then Ok (attr "S" (VString (toISOString d)))
      else Throw RangeError
  | iso, _ =>
      if has "toISOString" data then Throw Unmodelled else Throw TypeError
  end.

(** [formatList], open in the recursive call to [Converter.input].  Only an
    array has elements to visit; any other value classified as [Array] has
    none or leaves the model. *)
Definition formatList (input : value -> ConverterOptions -> result value)
    (data : value) (options : ConverterOptions) : result value :=
  match data with
  | VArray l =>
      list <- mapM (fun x => input x options) l ;;
      Ok (attr "L" (VArray list))
  | _ =>
      _ <- elements data ;;
      Ok (attr "L" (VArray []))
  end.

(** [formatMap], open in the recursive call to [Converter.input].  After an
    assignment that changes the prototype of the map the loop goes on, for
    the exceptions it may still throw, and its result leaves the model. *)
Definition formatMap (input : value -> ConverterOptions -> result value)
    (data : value) (options : ConverterOptions) : result value :=
  match data with
  | VObject _ props =>
      M <- (fix loop (props M : list (string * value)) {struct props}
              : result (list (string * value)) :=
              match props with
              | [] => Ok M
              | (key, v) :: rest =>
                  formatted <- input v options ;;
                  if sets_prototype key formatted then
                    _ <- loop rest M ;; Throw Unmodelled
                  else
                    loop rest (if is_undefined formatted then M
                               else assign key formatted M)
              end) props [] ;;
      Ok (attr "M" (obj M))
  | _ =>
      _ <- entries data ;;
      Ok (attr "M" (obj []))
  end.

Definition potentiallyEmptyTypes (key : string) : result value :=
  if String.eqb key "String" then Ok (VBool true)
  else if String.eqb key "Binary" then Ok (VBool true)
  else if String.eqb key "Number" then Ok (VBool false)
  else if existsb (String.eqb key) inherited_names then Throw Unmodelled
  else Ok VUndefined.

(** the loop of [filterEmptySetValues] *)
Fixpoint nonEmptyValues (l : list value) : result (list value) :=
  match l with
  | [] => Ok []
  | x :: r =>
      empty <- length_is_0 x ;;
      rest <- nonEmptyValues r ;;
      Ok (if empty then rest else x :: rest)
  end.

Definition filterEmptySetValues (set : value) : result value :=
  key <- to_string_r (get "type" set) ;;
  potentiallyEmpty <- potentiallyEmptyTypes key ;;
  if truthy potentiallyEmpty then
    l <- elements (get "values" set) ;;
    kept <- nonEmptyValues l ;;
    Ok (VArray kept)
  else Ok (get "values" set).

(** [values.map(f)] *)
Definition array_map (f : value -> result value) (values : value)
  : result value :=
  match values with
  | VArray l => l' <- mapM f l ;; Ok (VArray l')
  | VBinary _ _ => Throw Unmodelled
  | VObject _ props =>
      match lookup "map" props with
      | None => Throw TypeError
      | Some _ => Throw Unmodelled
      end
  | _ => Throw TypeError
  end.

Definition formatSet (data : value) (options : ConverterOptions)
  : result value :=
  let values := get "values" data in
  filtered <-
    (if convertEmptyValues options then
       values <- filterEmptySetValues data ;;
       empty <- length_is_0 values ;;
       Ok (if empty then None else Some values)
     else Ok (Some values)) ;;
  match filtered with
  | None => Ok input_null
  | Some values =>
      let type := get "type" data in
      if is_str type "String" then Ok (obj [("SS", values)])
      else if is_str type "Binary" then Ok (obj [("BS", values)])
      else if is_str type "Number" then
        strings <- array_map call_toString values ;;
        Ok (obj [("NS", strings)])
      else Ok (obj [])
  end.

(** [Converter.input].  The first line is not in the source: it leaves the
    model where [typeOf] has no result in it. *)
Fixpoint input (data : value) (options : ConverterOptions) {struct data}
  : result value :=
  if negb (classified data) then Throw Unmodelled else
  let type := typeOf data in
  if is_str type "Date" then formatDate data options
  else if is_str type "Object" then formatMap input data options
  else if is_str type "Array" then formatList input data options
  else if is_str type "Set" then formatSet data options
  else if is_str type "String" then
    empty <- length_is_0 data ;;
    if empty && convertEmptyValues options then Ok input_null
    else Ok (attr "S" data)
  else if is_str type "Number" || is_str type "NumberValue" then
    s <- call_toString data ;;
    Ok (attr "N" s)
  else if is_str type "Binary" then
    empty <- length_is_0 data ;;
    if empty && convertEmptyValues options then Ok input_null
    else Ok (attr "B" data)
  else if is_str type "Boolean" then Ok (attr "BOOL" data)
  else if is_str type "null" then Ok (attr "NULL" (VBool true))
  else if negb (is_str type "undefined") && negb (is_str type "Function")
  then formatMap input data options
  else Throw (UnableToConvert type).

(** [Converter.marshall] *)
Definition marshall (data : value) (options : ConverterOptions)
  : result value :=
  a <- input data options ;;
  Ok (get "M" a).

(** ** The converter module: attribute to native value *)

(** [convertNumber]; [new NumberValue(value)] stores its argument *)
Definition convertNumber (val : value) (wrapNumbers : bool) : result value :=
  if wrapNumbers then Ok (VNumberValue val)
  else n <- to_number val ;; Ok (VNumber n).

(** [Buffer.from(value)] on the part of its domain that is modelled: the
    bytes of an ASCII string, the bytes of an [ArrayBuffer], the entries of
    an integer typed array reduced to bytes. *)
Definition Buffer_from (val : value) : result value :=
  match val with
  | VString s =>
      Ok (VBinary Buffer
            (map (fun c => Z.of_nat (nat_of_ascii c)) (list_ascii_of_string s)))
  | VBinary ArrayBuffer elems => Ok (VBinary Buffer elems)
  | VBinary (Buffer | Int8Array | Uint8Array | Uint8ClampedArray | Int16Array
            | Uint16Array | Int32Array | Uint32Array) elems =>
      Ok (VBinary Buffer (map (fun e => Z.modulo e 256) elems))
  | VUndefined | VNull | VBool _ | VNumber _ | VFunction => Throw TypeError
  | _ => Throw Unmodelled
  end.

Definition toBuffer (val : value) : result value :=
  if negb (truthy val) then Ok (VBinary Buffer [])
  else
    match val with
    | VBinary Buffer _ | VBinary Uint8Array _ => Ok val
    | _ => Buffer_from val
    end.

(** [Converter.output].  The outer loop is [for (const type in data)]; it
    returns at the first recognised key.  A value that is not an object has
    no key the loop recognises.  In the [M] case an assignment that changes
    the prototype of [map] lets the loop go on and the result leave the
    model, as in [formatMap]. *)
Fixpoint output (data : value) (options : ConverterOptions) {struct data}
  : result value :=
  match data with
  | VObject _ props =>
      (fix loop (props : list (string * value)) : result value :=
         match props with
         | [] => Ok VUndefined
         | (key, payload) :: rest =>
             if String.eqb key "M" then
               match payload with
               | VObject _ mapValues =>
                   map <- (fix each (l map : list (string * value)) {struct l}
                             : result (list (string * value)) :=
                             match l with
                             | [] => Ok map
                             | (mapKey, v) :: r =>
                                 o <- output v options ;;
                                 if sets_prototype mapKey o then
                                   _ <- each r map ;; Throw Unmodelled
                                 else each r (assign mapKey o map)
                             end) mapValues [] ;;
                   Ok (obj map)
               | _ =>
                   _ <- entries (nullish_or payload (obj [])) ;;
                   Ok (obj [])
               end
             else if String.eqb key "L" then
               match payload with
               | VArray listValues =>
                   list <- mapM (fun x => output x options) listValues ;;
                   Ok (VArray list)
               | _ =>
                   _ <- elements (nullish_or payload (VArray [])) ;;
                   Ok (VArray [])
               end
             else if String.eqb key "SS" then
               listValues <- elements (nullish_or payload (VArray [])) ;;
               list <- mapM (fun x => s <- to_string_r x ;; Ok (VString s))
                         listValues ;;
               new_DynamoDBSet list
             else if String.eqb key "NS" then
               listValues <- elements (nullish_or payload (VArray [])) ;;
               list <- mapM (fun x => convertNumber x (wrapNumbers options))
                         listValues ;;
               new_DynamoDBSet list
             else if String.eqb key "BS" then
               listValues <- elements (nullish_or payload (VArray [])) ;;
               list <- mapM toBuffer listValues ;;
               new_DynamoDBSet list
             else if String.eqb key "S" then
               s <- to_string_r payload ;;
               Ok (VString s)
             else if String.eqb key "N" then
               if negb (truthy payload) then Ok VNull
               else convertNumber payload (wrapNumbers options)
             else if String.eqb key "B" then toBuffer payload
             else if String.eqb key "BOOL" then
               boolString <- to_string_r payload ;;
               Ok (VBool (String.eqb boolString "true"
                          || String.eqb boolString "TRUE"
                          || match payload with
                             | VBool true => true
                             | _ => false
                             end))
             else if String.eqb key "NULL" then Ok VNull
             else loop rest
         end) props
  | _ => Ok VUndefined
  end.

(** [Converter.unmarshall] *)
Definition unmarshall (data : value) (options : ConverterOptions)
  : result value :=
  output (obj [("M", data)]) options.

End Model.

Arguments Ok {H A} a.
Arguments Throw {H A} e.

Notation "x <- r ;; k" := (bind r (fun x => k))
  (at level 61, r at next level, right associativity).

(** ** Loops by name, measures and predicates used in the statements *)

Section Notions.
Context {H : Host}.

(** the loop of [formatMap], by name *)
Definition formatMap_loop (options : ConverterOptions)
  : list (string * value) -> list (string * value) ->
    result (list (string * value)) :=
  fix loop props M {struct props} :=
    match props with
    | [] => Ok M
    | (key, v) :: rest =>
        formatted <- input v options ;;
        if sets_prototype key formatted then
          _ <- loop rest M ;; Throw Unmodelled
        else
          loop rest (if is_undefined formatted then M
                     else assign key formatted M)
    end.

(** the loop of the [M] case of [output], by name *)
Definition output_M_loop (options : ConverterOptions)
  : list (string * value) -> list (string * value) ->
    result (list (string * value)) :=
  fix each l map {struct l} :=
    match l with
    | [] => Ok map
    | (mapKey, v) :: r =>
        o <- output v options ;;
        if sets_prototype mapKey o then _ <- each r map ;; Throw Unmodelled
        else each r (assign mapKey o map)
    end.

(** what the body of the outer loop of [output] does with one key: [None]
    when the key is not recognised and the loop goes on *)
Definition output_key (key : string) (payload : value)
    (options : ConverterOptions) : option (result value) :=
  if String.eqb key "M" then
    Some match payload with
         | VObject _ mapValues =>
             map <- output_M_loop options mapValues [] ;;
             Ok (obj map)
         | _ =>
             _ <- entries (nullish_or payload (obj [])) ;;
             Ok (obj [])
         end
  else if String.eqb key "L" then
    Some match payload with
         | VArray listValues =>
             list <- mapM (fun x => output x options) listValues ;;
             Ok (VArray list)
         | _ =>
             _ <- elements (nullish_or payload (VArray [])) ;;
             Ok (VArray [])
         end
  else if String.eqb key "SS" then
    Some (listValues <- elements (nullish_or payload (VArray [])) ;;
          list <- mapM (fun x => s <- to_string_r x ;; Ok (VString s))
                    listValues ;;
          new_DynamoDBSet list)
  else if String.eqb key "NS" then
    Some (listValues <- elements (nullish_or payload (VArray [])) ;;
          list <- mapM (fun x => convertNumber x (wrapNumbers options))
                    listValues ;;
          new_DynamoDBSet list)
  else if String.eqb key "BS" then
    Some (listValues <- elements (nullish_or payload (VArray [])) ;;
          list <- mapM toBuffer listValues ;;
          new_DynamoDBSet list)
  else if String.eqb key "S" then
    Some (s <- to_string_r payload ;; Ok (VString s))
  else if String.eqb key "N" then
    Some (if negb (truthy payload) then Ok VNull
          else convertNumber payload (wrapNumbers options))
  else if String.eqb key "B" then Some (toBuffer payload)
  else if String.eqb key "BOOL" then
    Some (boolString <- to_string_r payload ;;
          Ok (VBool (String.eqb boolString "true"
                     || String.eqb boolString "TRUE"
                     || match payload with
                        | VBool true => true
                        | _ => false
                        end)))
  else if String.eqb key "NULL" then Some (Ok VNull)
  else None.

Fixpoint size (v : value) : nat :=
  match v with
  | VNumberValue w => S (size w)
  | VArray l => S (list_sum (map size l))
  | VObject _ props => S (list_sum (map (fun kv => size (snd kv)) props))
  | _ => 1
  end.

Definition attribute_keys : list string :=
  ["S"; "N"; "B"; "SS"; "NS"; "BS"; "M"; "L"; "NULL"; "BOOL"].

(** an object with exactly one own key, taken from [attribute_keys] and
    populated (its payload is not [undefined]); under [M] an object of such
    attributes, under [L] an array of them *)
Fixpoint tagged (a : value) : bool :=
  match a with
  | VObject _ [(key, payload)] =>
      existsb (String.eqb key) attribute_keys &&
      negb (is_undefined payload) &&
      (if String.eqb key "M" then
         match payload with
         | VObject _ m => forallb (fun kv => tagged (snd kv)) m
         | _ => false
         end
       else if String.eqb key "L" then
         match payload with
         | VArray l => forallb tagged l
         | _ => false
         end
       else true)
  | _ => false
  end.

(** the declared element type [formatSet] switches on *)
Definition set_type_known (data : value) : bool :=
  is_str (get "type" data) "String"
  || is_str (get "type" data) "Binary"
  || is_str (get "type" data) "Number".

(** every value classified as [Set], at the top or below arrays and
    objects, declares one of the three element types and has a member
    [values]; every numeric wrapper holds a value *)
Fixpoint typed_sets (data : value) : bool :=
  match data with
  | VNumberValue w => negb (is_undefined w)
  | VArray l => forallb typed_sets l
  | VObject _ props =>
      if is_str (typeOf data) "Set"
      then set_type_known data && negb (is_undefined (get "values" data))
      else forallb (fun kv => typed_sets (snd kv)) props
  | _ => true
  end.

(** the type names [input] treats specially *)
Definition reserved_types : list string :=
  ["Date"; "Array"; "Set"; "String"; "Number"; "NumberValue"; "Binary";
   "Boolean"; "null"; "undefined"; "Function"].

Fixpoint distinct (l : list string) : bool :=
  match l with
  | [] => true
  | k :: r => negb (existsb (String.eqb k) r) && distinct r
  end.

(** The records of the specification's round-trip property: strings,
    finite numbers, booleans, null, dates, binary payloads, arrays and plain
    objects (whose property names are distinct, as in any object). *)
Fixpoint plain (v : value) : bool :=
  match v with
  | VNull | VBool _ | VString _ | VDate _ | VBinary _ _ => true
  | VNumber n => number_finite n
  | VArray l => forallb plain l
  | VObject (Some c) props =>
      String.eqb c "Object" && distinct (map fst props)
      && forallb (fun kv => plain (snd kv)) props
  | _ => false
  end.

(** whether one of the names is [__proto__] *)
Definition names_proto (names : list string) : bool :=
  existsb (String.eqb "__proto__") names.

(** Those among them that [input] and [output] carry through: numbers are
    not [-0], dates are valid, binary payloads are [Buffer]s or
    [Uint8Array]s, no object has a property called [__proto__], and no
    object is classified (by a property [wrapperName] or [constructor]) as
    one of the reserved types. *)
Fixpoint convertible (v : value) : bool :=
  match v with
  | VNull | VBool _ | VString _ => true
  | VDate d => valid d
  | VBinary t _ =>
      match t with Buffer | Uint8Array => true | _ => false end
  | VNumber n => number_finite n && negb (number_negative_zero n)
  | VArray l => forallb convertible l
  | VObject (Some c) props =>
      String.eqb c "Object" && distinct (map fst props)
      && negb (names_proto (map fst props))
      && (classified v && negb (existsb (is_str (typeOf v)) reserved_types))
      && forallb (fun kv => convertible (snd kv)) props
  | _ => false
  end.

(** what a value looks like after the round trip: a date has become its ISO
    string *)
Fixpoint restored (v : value) : value :=
  match v with
  | VDate d => VString (toISOString d)
  | VArray l => VArray (map restored l)
  | VObject c props =>
      VObject c (map (fun kv => (fst kv, restored (snd kv))) props)
  | _ => v
  end.

(** [unmarshall(marshall(R, o), o)] *)
Definition round_trip (R : value) (o : ConverterOptions) : result value :=
  m <- marshall R o ;; unmarshall m o.

(** one step of the round trip, for a value [v] *)
Definition carried (o : ConverterOptions) (v : value) : Prop :=
  exists a, input v o = Ok a /\ is_undefined a = false
            /\ output a o = Ok (restored v).

(** one property and its entry in the marshalled map *)
Definition marshalled (o : ConverterOptions)
    (kv ka : string * value) : Prop :=
  fst ka = fst kv /\ input (snd kv) o = Ok (snd ka).

(** The methods of the private class [NumberValue]: [toNumber] converts the
    stored value, [toJSON] is [toNumber], [toString] returns the stored
    value (see [call_toString]). *)
Definition NumberValue_toNumber (this : value) : result number :=
  match this with
  | VNumberValue v => to_number v
  | _ => Throw TypeError
  end.

Definition NumberValue_toJSON (this : value) : result number :=
  NumberValue_toNumber this.

(** [DynamoDBSet.toJSON] *)
Definition DynamoDBSet_toJSON (this : DynamoDBSet) : value :=
  VArray (values this).

(** the keys the loop of [output] recognises *)
Definition recognised (key : string) : bool :=
  existsb (String.eqb key) attribute_keys.

(** a string that is not empty *)
Definition nonempty (s : string) : bool := negb (String.eqb s "").

(** the property names that change how an object is classified or built *)
Definition special_names : list string :=
  ["__proto__"; "wrapperName"; "constructor"].

(** Attributes in the shape the wire format declares (attribute-value.ts),
    without the set members: one key; a string under [S], a non-empty
    string under [N], a [Buffer] or [Uint8Array] under [B], a boolean under
    [BOOL], [true] under [NULL], a list of such attributes under [L], and
    under [M] an object of such attributes with distinct names, none of
    them [__proto__], [wrapperName] or [constructor]. *)
Fixpoint canonical (a : value) : bool :=
  match a with
  | VObject (Some c) [(key, payload)] =>
      String.eqb c "Object" &&
      if String.eqb key "S" then
        match payload with VString _ => true | _ => false end
      else if String.eqb key "N" then
        match payload with VString s => nonempty s | _ => false end
      else if String.eqb key "B" then
        match payload with
        | VBinary Buffer _ | VBinary Uint8Array _ => true
        | _ => false
        end
      else if String.eqb key "BOOL" then
        match payload with VBool _ => true | _ => false end
      else if String.eqb key "NULL" then
        match payload with VBool true => true | _ => false end
      else if String.eqb key "L" then
        match payload with
        | VArray l => forallb canonical l
        | _ => false
        end
      else if String.eqb key "M" then
        match payload with
        | VObject (Some c') m =>
            String.eqb c' "Object" && distinct (map fst m)
            && forallb (fun k => negb (existsb (String.eqb k) (map fst m)))
                 special_names
            && forallb (fun kv => canonical (snd kv)) m
        | _ => false
        end
      else false
  | _ => false
  end.

(** a set instance as the constructor would leave it, had it stored its
    list: the values, the marker and the element type *)
Definition a_set (type : string) (values : list value) : value :=
  set_value {| values := values; wrapperName := "Set";
               type := VString type |}.

(** the attribute [a] is unmarshalled to a value that is marshalled to [a] *)
Definition returns (o : ConverterOptions) (a : value) : Prop :=
  exists v, output a o = Ok v /\ input v o = Ok a.

(** What a value looks like after the round trip under the options [o]: a
    date has become a string in the chosen format, an empty string or empty
    binary payload has become [null] when [convertEmptyValues] is set, and a
    number has become a wrapper around its string form when [wrapNumbers]
    is set. *)
Fixpoint restored_with (o : ConverterOptions) (v : value) : value :=
  match v with
  | VDate d =>
      VString match dateFormat o with
              | iso => toISOString d
              | unix => number_toString (getUnixTime d)
              end
  | VString s =>
      if Nat.eqb (String.length s) 0 && convertEmptyValues o then VNull
      else v
  | VBinary t e =>
      if has_length t && Nat.eqb (List.length e) 0 && convertEmptyValues o
      then VNull else v
  | VNumber n =>
      if wrapNumbers o then VNumberValue (VString (number_toString n))
      else v
  | VArray l => VArray (map (restored_with o) l)
  | VObject c props =>
      VObject c (map (fun kv => (fst kv, restored_with o (snd kv))) props)
  | _ => v
  end.

(** one entry of a map under [M] and its entry in the unmarshalled object *)
Definition unmarshalled (o : ConverterOptions)
    (kv kv' : string * value) : Prop :=
  fst kv' = fst kv /\ output (snd kv) o = Ok (snd kv').

End Notions.

(** ** A host for examples: integers and [NaN], printed in decimal *)

Definition Z_of_string (s : string) : option Z :=
  match NilEmpty.int_of_string s with
  | Some d => Some (Z.of_int d)
  | None => None
  end.

Definition Z_to_string (z : Z) : string :=
  NilEmpty.string_of_int (Z.to_int z).

#[local] Instance ZHost : Host := {|
  number := option Z;
  number_toString n :=
    match n with Some z => Z_to_string z | None => "NaN" end;
  Number_of_string s := Z_of_string s;
  number_of_Z z := Some z;
  NaN := None;
  number_truthy n :=
    match n with Some z => negb (Z.eqb z 0) | None => false end;
  number_finite n := match n with Some _ => true | None => false end;
  number_negative_zero n := false
|}.

(** A record with a well-formed string set and a nested list. *)
Definition tagged_example : value (H:=ZHost) :=
  obj [("tags", VObject (Some "DynamoDBSet")
                  [("values", VArray [VString "a"]);
                   ("wrapperName", VString "Set");
                   ("type", VString "String")]);
       ("n", VNumber (Some 1%Z));
       ("l", VArray [VNull; VBool true])].

(** The record of the repository's test: a user with a date and a picture. *)
Definition user_example : value (H:=ZHost) :=
  obj [("id", VNumber (Some 575%Z));
       ("name", VString "Danny");
       ("favorites", VArray [VString "apples"; VString "pears"]);
       ("lastPayment", VNull);
       ("createdAt",
        VDate {| valid := true;
                 toISOString := "2021-07-09T21:44:07.015Z";
                 getUnixTime := Some 1625867047%Z |});
       ("address", obj [("streetNumber", VNumber (Some 112%Z));
                        ("streetName", VString "Drive")]);
       ("profilePicture", VBinary Buffer [137; 80; 78; 71]%Z)].

Lemma Z_of_to_string (z : Z) : Z_of_string (Z_to_string z) = Some z.
Proof.
  unfold Z_of_string, Z_to_string.
  rewrite NilEmpty.isi. now rewrite DecimalZ.of_to.
Qed.

Lemma Z_to_string_nonempty (z : Z) : Z_to_string z <> "".
Proof.
  intros E. pose proof (Z_of_to_string z) as R. rewrite E in R.
  vm_compute in R. injection R as <-. vm_compute in E. discriminate.
Qed.

#[local] Instance ZHostLaws : HostLaws ZHost.
Proof.
  split.
  - intros [z|] F _; simpl in *.
    + apply Z_of_to_string.
    + discriminate.
  - intros [z|]; simpl.
    + apply Z_to_string_nonempty.
    + discriminate.
Defined.

(** ** Unfolding equations *)

Section Equations.
Context {H : Host}.

Lemma formatMap_object c props options :
  formatMap input (VObject c props) options =
  (M <- formatMap_loop options props [] ;; Ok (attr "M" (obj M))).
Proof. reflexivity. Qed.

Lemma input_eq data options :
  input data options =
  if negb (classified data) then Throw Unmodelled else
  let type := typeOf data in
  if is_str type "Date" then formatDate data options
  else if is_str type "Object" then formatMap input data options
  else if is_str type "Array" then formatList input data options
  else if is_str type "Set" then formatSet data options
  else if is_str type "String" then
    empty <- length_is_0 data ;;
    if empty && convertEmptyValues options then Ok input_null
    else Ok (attr "S" data)
  else if is_str type "Number" || is_str type "NumberValue" then
    s <- call_toString data ;;
    Ok (attr "N" s)
  else if is_str type "Binary" then
    empty <- length_is_0 data ;;
    if empty && convertEmptyValues options then Ok input_null
    else Ok (attr "B" data)
  else if is_str type "Boolean" then Ok (attr "BOOL" data)
  else if is_str type "null" then Ok (attr "NULL" (VBool true))
  else if negb (is_str type "undefined") && negb (is_str type "Function")
  then formatMap input data options
  else Throw (UnableToConvert type).
Proof. destruct data; reflexivity. Qed.

Lemma output_nil c options : output (VObject c []) options = Ok VUndefined.
Proof. reflexivity. Qed.

Lemma output_cons c key payload rest options :
  output (VObject c ((key, payload) :: rest)) options =
  match output_key key payload options with
  | Some r => r
  | None => output (VObject c rest) options
  end.
Proof.
  unfold output_key.
  change (output (VObject c ((key, payload) :: rest)) options) with
    (if String.eqb key "M" then
       match payload with
       | VObject _ mapValues =>
           map <- output_M_loop options mapValues [] ;; Ok (obj map)
       | _ => _ <- entries (nullish_or payload (obj [])) ;; Ok (obj [])
       end
     else if String.eqb key "L" then
       match payload with
       | VArray listValues =>
           list <- mapM (fun x => output x options) listValues ;;
           Ok (VArray list)
       | _ => _ <- elements (nullish_or payload (VArray [])) ;;
              Ok (VArray [])
       end
     else if String.eqb key "SS" then
       listValues <- elements (nullish_or payload (VArray [])) ;;
       list <- mapM (fun x => s <- to_string_r x ;; Ok (VString s))
                 listValues ;;
       new_DynamoDBSet list
     else if String.eqb key "NS" then
       listValues <- elements (nullish_or payload (VArray [])) ;;
       list <- mapM (fun x => convertNumber x (wrapNumbers options))
                 listValues ;;
       new_DynamoDBSet list
     else if String.eqb key "BS" then
       listValues <- elements (nullish_or payload (VArray [])) ;;
       list <- mapM toBuffer listValues ;;
       new_DynamoDBSet list
     else if String.eqb key "S" then
       s <- to_string_r payload ;; Ok (VString s)
     else if String.eqb key "N" then
       if negb (truthy payload) then Ok VNull
       else convertNumber payload (wrapNumbers options)
     else if String.eqb key "B" then toBuffer payload
     else if String.eqb key "BOOL" then
       boolString <- to_string_r payload ;;
       Ok (VBool (String.eqb boolString "true"
                  || String.eqb boolString "TRUE"
                  || match payload with
                     | VBool true => true
                     | _ => false
                     end))
     else if String.eqb key "NULL" then Ok VNull
     else output (VObject c rest) options).
  repeat (destruct (String.eqb key _); [reflexivity|]).
  reflexivity.
Qed.

End Equations.

(** ** Properties *)

Section Properties.
Context {H : Host}.

Lemma bind_Throw_r {A B} (r : result A) (k : A -> result B) :
  (forall a, exists e, k a = Throw e) -> exists e, bind r k = Throw e.
Proof.
  intros K. destruct r as [a|e]; simpl; [apply K | now exists e].
Qed.

(** [initialize] never stores the list, so [detectType] classifies
    [undefined] and the constructor throws. *)
Lemma new_DynamoDBSet_InvalidSet (list : list value) :
  new_DynamoDBSet list = Throw InvalidSet.
Proof. reflexivity. Qed.

(** C2.  [new DynamoDBSet(list)] throws the set-composition error also for
    a list that starts with a string, a number, a numeric wrapper or a
    binary value (and for every other list). *)
Theorem new_DynamoDBSet_throws (s : string) (n : number) (t : BinaryType)
    (e : list Z) (rest list : list value) :
  new_DynamoDBSet (VString s :: rest) = Throw InvalidSet /\
  new_DynamoDBSet (VNumber n :: rest) = Throw InvalidSet /\
  new_DynamoDBSet (VNumberValue (VString s) :: rest) = Throw InvalidSet /\
  new_DynamoDBSet (VBinary t e :: rest) = Throw InvalidSet /\
  new_DynamoDBSet list = Throw InvalidSet.
Proof. repeat split. Qed.

Lemma mapM_Ok {A B} (f : A -> result B) (l : list A) :
  Forall (fun x => exists y, f x = Ok y) l -> exists l', mapM f l = Ok l'.
Proof.
  induction 1 as [|x l [y E] _ [l' E']]; simpl.
  - now exists [].
  - rewrite E, E'. now exists (y :: l').
Qed.

(** C3.  [output] on an [SS], [NS] or [BS] attribute never returns a set: it
    ends in an exception whatever the payload, and in the set-composition
    error on a list of strings, of number strings or of buffers. *)
Theorem output_set_throws (payload : value) (strings : list string)
    (buffers : list (list Z)) (options : ConverterOptions) :
  (exists e, output (attr "SS" payload) options = Throw e) /\
  (exists e, output (attr "NS" payload) options = Throw e) /\
  (exists e, output (attr "BS" payload) options = Throw e) /\
  output (attr "SS" (VArray (map VString strings))) options
  = Throw InvalidSet /\
  output (attr "NS" (VArray (map VString strings))) options
  = Throw InvalidSet /\
  output (attr "BS" (VArray (map (VBinary Buffer) buffers))) options
  = Throw InvalidSet.
Proof.
  unfold attr, obj. rewrite !output_cons.
  cbn [output_key String.eqb Ascii.eqb Bool.eqb nullish_or elements bind].
  repeat split;
    try (apply bind_Throw_r; intros l; apply bind_Throw_r; intros l';
         exists InvalidSet; apply new_DynamoDBSet_InvalidSet).
  - destruct (mapM_Ok (fun x => s <- to_string_r x ;; Ok (VString s))
                (map VString strings)) as [l' ->]; [|reflexivity].
    apply Forall_forall. intros x I. apply in_map_iff in I as (s & <- & _).
    now exists (VString s).
  - destruct (mapM_Ok (fun x => convertNumber x (wrapNumbers options))
                (map VString strings)) as [l' ->]; [|reflexivity].
    apply Forall_forall. intros x I. apply in_map_iff in I as (s & <- & _).
    unfold convertNumber. destruct (wrapNumbers options); simpl; eauto.
  - destruct (mapM_Ok toBuffer (map (VBinary Buffer) buffers)) as [l' ->];
      [|reflexivity].
    apply Forall_forall. intros x I. apply in_map_iff in I as (b & <- & _).
    now exists (VBinary Buffer b).
Qed.

(** The empty-value policy on strings and on containers that have a
    [length]. *)
Lemma input_empty_values (options : ConverterOptions) (t : BinaryType) :
  input VNull options = Ok input_null /\
  input (VString "") options
  = (if convertEmptyValues options then Ok input_null
     else Ok (attr "S" (VString ""))) /\
  input (VBinary t []) options
  = (if has_length t && convertEmptyValues options then Ok input_null
     else Ok (attr "B" (VBinary t []))).
Proof.
  destruct options as [[|] w d]; repeat split; destruct t; reflexivity.
Qed.

(** C8.  With [convertEmptyValues] set, a zero-length [ArrayBuffer] is
    marshalled to a [B] attribute, not to [{NULL: true}]: the emptiness test
    reads [length], which an [ArrayBuffer] does not have. *)
Theorem input_empty_ArrayBuffer (w : bool) (d : DateFormat) :
  input (VBinary ArrayBuffer [])
    {| convertEmptyValues := true; wrapNumbers := w; dateFormat := d |}
  = Ok (attr "B" (VBinary ArrayBuffer [])).
Proof. reflexivity. Qed.

(** C9.  A number is marshalled to [{N: s}] with [s] its string form; a
    non-empty string [s] under [N] is unmarshalled with [wrapNumbers] to a
    numeric wrapper whose [toString()] is [s], and marshalling that wrapper
    gives [{N: s}] again. *)
Theorem number_string_round_trip (n : number) (s : string)
    (o o' : ConverterOptions)
    (Hs : s <> "") (Hw : wrapNumbers o = true) :
  input (VNumber n) o' = Ok (attr "N" (VString (number_toString n))) /\
  output (attr "N" (VString s)) o = Ok (VNumberValue (VString s)) /\
  call_toString (VNumberValue (VString s)) = Ok (VString s) /\
  input (VNumberValue (VString s)) o' = Ok (attr "N" (VString s)).
Proof.
  repeat split.
  unfold attr, obj. rewrite output_cons.
  change (output_key "N" (VString s) o)
    with (Some (if negb (truthy (VString s)) then Ok VNull
                else convertNumber (VString s) (wrapNumbers o))).
  cbn [truthy]. destruct (String.eqb_spec s "") as [E|_]; [contradiction|].
  cbn. unfold convertNumber. now rewrite Hw.
Qed.

(** The string coercion of a primitive is ["true"] or ["TRUE"] only for the
    three payloads the specification lists. *)
Lemma primitive_true_string (p : value) (s : string) :
  is_primitive p = true -> to_string p = Some s ->
  (String.eqb s "true" || String.eqb s "TRUE" = true <->
   p = VBool true \/ p = VString "true" \/ p = VString "TRUE"
   \/ exists n, p = VNumber n /\
        (number_toString n = "true" \/ number_toString n = "TRUE")).
Proof.
  intros P E. rewrite orb_true_iff, !String.eqb_eq.
  destruct p; try discriminate P; simpl in E.
  - injection E as <-. split; [intros [F|F]; discriminate|].
    intros [F|[F|[F|(n & F & _)]]]; discriminate.
  - injection E as <-. split; [intros [F|F]; discriminate|].
    intros [F|[F|[F|(n & F & _)]]]; discriminate.
  - destruct b; injection E as <-.
    + split; auto.
    + split; [intros [F|F]; discriminate|].
      intros [F|[F|[F|(n & F & _)]]]; discriminate.
  - injection E as <-. split.
    + intros F. right. right. right. now exists n.
    + intros [F|[F|[F|(m & F & G)]]]; try discriminate.
      now injection F as <-.
  - injection E as <-. split.
    + intros [->| ->]; auto.
    + intros [F|[F|[F|(m & F & G)]]]; try discriminate;
        injection F as <-; auto.
Qed.

(** C7, as the code has it.  [output] on a [BOOL] attribute coerces the
    payload to a string; when the coercion succeeds it returns [true] exactly
    when the string is ["true"] or ["TRUE"] and [false] otherwise, and when
    the coercion throws (a null-prototype object) it throws the same.  The
    boolean [true] and the strings ["true"] and ["TRUE"] are payloads that
    give [true], and so is every other value that prints as one of the two
    strings. *)
Theorem output_BOOL (p : value) (s : string) (o : ConverterOptions)
    (Hs : to_string p = Some s) :
  output (attr "BOOL" p) o
  = Ok (VBool (String.eqb s "true" || String.eqb s "TRUE")) /\
  output (attr "BOOL" (VBool true)) o = Ok (VBool true) /\
  output (attr "BOOL" (VString "true")) o = Ok (VBool true) /\
  output (attr "BOOL" (VString "TRUE")) o = Ok (VBool true) /\
  (forall q e, to_string_r q = Throw e ->
               output (attr "BOOL" q) o = Throw e) /\
  output (attr "BOOL" (VObject None [])) o = Throw TypeError.
Proof.
  repeat split.
  - unfold attr, obj. rewrite output_cons. cbn. unfold to_string_r.
    rewrite Hs. cbn. do 2 f_equal.
    destruct p as [| |[|]| | | | | | | |]; try apply orb_false_r.
    simpl in Hs. injection Hs as <-. reflexivity.
  - intros q e E. unfold attr, obj. rewrite output_cons. cbn.
    now rewrite E.
Qed.

End Properties.

(** C9 at the string ["123.45"]. *)
Lemma number_string_round_trip_witness :
  let o := {| convertEmptyValues := false; wrapNumbers := true;
              dateFormat := iso |} in
  "123.45" <> "" /\ wrapNumbers o = true /\
  output (H:=ZHost) (attr "N" (VString "123.45")) o
  = Ok (VNumberValue (VString "123.45")).
Proof.
  split; [discriminate|]. split; [reflexivity|].
  apply (number_string_round_trip (H:=ZHost) (Some 575%Z) "123.45"
           {| convertEmptyValues := false; wrapNumbers := true;
              dateFormat := iso |} default_options);
    [discriminate | reflexivity].
Defined.

(** C7, as the specification has it, fails on the array [["true"]]: it is
    none of the three listed payloads and [output] returns [true]. *)
Lemma output_BOOL_array_counterexample :
  ~ (forall (p : value (H:=ZHost)) (o : ConverterOptions),
       output (attr "BOOL" p) o = Ok (VBool true) <->
       (p = VBool true \/ p = VString "true" \/ p = VString "TRUE")).
Proof.
  intros C.
  destruct (C (VArray [VString "true"]) default_options) as [F _].
  destruct (F eq_refl) as [E|[E|E]]; discriminate E.
Qed.

(** C7 at the payload ["TRUE"]. *)
Lemma output_BOOL_witness :
  to_string (H:=ZHost) (VString "TRUE") = Some "TRUE" /\
  output (H:=ZHost) (attr "BOOL" (VString "TRUE")) default_options
  = Ok (VBool true).
Proof.
  split; [reflexivity|].
  apply (output_BOOL (H:=ZHost) (VString "TRUE") "TRUE" default_options).
  reflexivity.
Defined.

(** ** Unmarshalling reads one option *)

Section Options.
Context {H : Host}.

Lemma value_size_ind (Q : value -> Prop) :
  (forall v, (forall w, size w < size v -> Q w) -> Q v) -> forall v, Q v.
Proof.
  intros Step v. remember (size v) as n eqn:E.
  revert v E. induction n as [n IH] using lt_wf_ind.
  intros v ->. apply Step. intros w L. now apply (IH (size w)).
Qed.

Lemma size_element (x : value) (l : list value) :
  In x l -> size x < size (VArray l).
Proof.
  simpl. induction l as [|y l IH]; [intros []|]; intros [<-|I]; simpl.
  - lia.
  - specialize (IH I). lia.
Qed.

Lemma size_property (k : string) (x : value) c props :
  In (k, x) props -> size x < size (VObject c props).
Proof.
  simpl. induction props as [|[k' y] l IH]; [intros []|];
    intros [E|I]; simpl.
  - injection E as <- <-. lia.
  - specialize (IH I). lia.
Qed.

Lemma mapM_ext {A B} (f g : A -> result B) (l : list A) :
  (forall x, In x l -> f x = g x) -> mapM f l = mapM g l.
Proof.
  induction l as [|x l IH]; intros E; simpl; [reflexivity|].
  rewrite (E x (or_introl eq_refl)).
  rewrite IH; [reflexivity|]. intros y I. apply E. now right.
Qed.

Lemma output_M_loop_ext (o1 o2 : ConverterOptions) l :
  (forall k v, In (k, v) l -> output v o1 = output v o2) ->
  forall map, output_M_loop o1 l map = output_M_loop o2 l map.
Proof.
  induction l as [|[k v] l IH]; intros E map; simpl; [reflexivity|].
  rewrite (E k v (or_introl eq_refl)).
  destruct (output v o2) as [a|e]; simpl; [|reflexivity].
  assert (R : forall map, output_M_loop o1 l map = output_M_loop o2 l map).
  { apply IH. intros k' v' I. apply (E k' v'). now right. }
  destruct (sets_prototype k a); [now rewrite R|apply R].
Qed.

Lemma output_key_ext (o1 o2 : ConverterOptions) key payload :
  wrapNumbers o1 = wrapNumbers o2 ->
  (forall w, size w < size payload -> output w o1 = output w o2) ->
  output_key key payload o1 = output_key key payload o2.
Proof.
  intros W IH. unfold output_key. rewrite W.
  destruct (String.eqb key "M").
  { destruct payload; try reflexivity.
    rewrite (output_M_loop_ext o1 o2 props); [reflexivity|].
    intros k v I. apply IH. now apply (size_property k). }
  destruct (String.eqb key "L").
  { destruct payload; try reflexivity.
    rewrite (mapM_ext (fun x => output x o1) (fun x => output x o2));
      [reflexivity|].
    intros x I. apply IH. now apply size_element. }
  reflexivity.
Qed.

(** C10.  Two option records that agree on [wrapNumbers] give the same
    result of [output] on every attribute, whatever their
    [convertEmptyValues] and [dateFormat]. *)
Theorem output_reads_wrapNumbers_only (a : value) (o1 o2 : ConverterOptions)
    (Hw : wrapNumbers o1 = wrapNumbers o2) :
  output a o1 = output a o2.
Proof.
  induction a as [a IH] using value_size_ind.
  destruct a as [| | | | | | | | | |c props]; try reflexivity.
  assert (S : forall k p, In (k, p) props ->
                forall w, size w < size p -> output w o1 = output w o2).
  { intros k p I w L. apply IH.
    pose proof (size_property k p c props I). lia. }
  clear IH. induction props as [|[k p] rest IHr]; [reflexivity|].
  rewrite !output_cons.
  rewrite (output_key_ext o1 o2 k p Hw (S k p (or_introl eq_refl))).
  destruct (output_key k p o2); [reflexivity|].
  apply IHr. intros k' p' I. apply (S k' p'). now right.
Qed.

End Options.

(** C10 at an [N] attribute and two option records that differ in
    [convertEmptyValues] and [dateFormat]. *)
Lemma output_reads_wrapNumbers_only_witness :
  let o1 := {| convertEmptyValues := true; wrapNumbers := true;
               dateFormat := unix |} in
  let o2 := {| convertEmptyValues := false; wrapNumbers := true;
               dateFormat := iso |} in
  wrapNumbers o1 = wrapNumbers o2 /\
  output (H:=ZHost) (attr "N" (VString "7")) o1
  = output (attr "N" (VString "7")) o2.
Proof.
  split; [reflexivity|].
  apply (output_reads_wrapNumbers_only (H:=ZHost)). reflexivity.
Defined.

(** ** Values that cannot be converted *)

Section Unconvertible.
Context {H : Host}.

Lemma typeOf_VArray (l : list value) : typeOf (VArray l) = VString "Array".
Proof. reflexivity. Qed.

Lemma input_VArray (l : list value) (o : ConverterOptions) :
  input (VArray l) o =
  (list <- mapM (fun x => input x o) l ;; Ok (attr "L" (VArray list))).
Proof. reflexivity. Qed.

Lemma mapM_app_Throw {A B} (f : A -> result B) pre pre' x post e :
  mapM f pre = Ok pre' -> f x = Throw e ->
  mapM f (pre ++ x :: post) = Throw e.
Proof.
  revert pre'. induction pre as [|y pre IH]; intros pre' P X; simpl.
  - now rewrite X.
  - simpl in P. destruct (f y) as [b|e']; [|discriminate]. simpl in *.
    destruct (mapM f pre) as [bs|e']; [|discriminate].
    now rewrite (IH bs eq_refl X).
Qed.

Lemma mapM_In_Throw {A B} (f : A -> result B) l x e :
  In x l -> f x = Throw e -> exists e', mapM f l = Throw e'.
Proof.
  intros I X. induction l as [|y l IH]; [destruct I|]. simpl.
  destruct I as [->|I].
  - rewrite X. now exists e.
  - destruct (f y) as [b|e']; [|now exists e']. simpl.
    destruct (IH I) as [e' ->]. now exists e'.
Qed.

Lemma typeOf_classified (data : value) (s : string) :
  typeOf data = VString s -> classified data = true.
Proof.
  destruct data as [| | | | | | | | | |c props]; try reflexivity.
  unfold typeOf, isBinary, classified.
  destruct (constructor_of (VObject c props)); try reflexivity.
  discriminate.
Qed.

Lemma input_unconvertible_type (data : value) (o : ConverterOptions) :
  typeOf data = VString "undefined" \/ typeOf data = VString "Function" ->
  input data o = Throw (UnableToConvert (typeOf data)).
Proof.
  intros T. rewrite input_eq. cbv zeta.
  destruct T as [T | T]; rewrite (typeOf_classified data _ T), T;
    reflexivity.
Qed.

(** C6.  A value classified as [undefined] or [Function] makes [input]
    throw the conversion error that carries that type, when it is the whole
    input and when it is the first element of an array that does not
    convert; an array that holds such an element anywhere yields an
    exception and no attribute. *)
Theorem input_unconvertible (data : value) (pre pre' post : list value)
    (o : ConverterOptions)
    (Ht : typeOf data = VString "undefined"
          \/ typeOf data = VString "Function")
    (Hpre : mapM (fun x => input x o) pre = Ok pre') :
  input data o = Throw (UnableToConvert (typeOf data)) /\
  input (VArray (pre ++ data :: post)) o
  = Throw (UnableToConvert (typeOf data)) /\
  (forall l, In data l -> exists e, input (VArray l) o = Throw e) /\
  (forall l, In data l -> exists e, input (VArray [VArray l]) o = Throw e).
Proof.
  pose proof (input_unconvertible_type data o Ht) as T.
  split; [exact T|]. split; [|split].
  - rewrite input_VArray.
    now rewrite (mapM_app_Throw _ pre pre' data post _ Hpre T).
  - intros l I. rewrite input_VArray.
    destruct (mapM_In_Throw (fun x => input x o) l data _ I T) as [e ->].
    now exists e.
  - intros l I. rewrite input_VArray.
    assert (X : exists e, input (VArray l) o = Throw e).
    { rewrite input_VArray.
      destruct (mapM_In_Throw (fun x => input x o) l data _ I T) as [e ->].
      now exists e. }
    destruct X as [e X].
    change (mapM (fun x => input x o) [VArray l])
      with (y <- input (VArray l) o ;;
            ys <- mapM (fun x => input x o) [] ;; Ok (y :: ys)).
    rewrite X. now exists e.
Qed.

(** [input] never returns [undefined]: the test [formatted !== void 0] of
    [formatMap] always succeeds. *)
Lemma input_defined (data : value) (o : ConverterOptions) (a : value) :
  input data o = Ok a -> is_undefined a = false.
Proof.
  rewrite input_eq. cbv zeta. unfold formatDate, formatMap, formatList, formatSet.
  intros E.
  repeat match type of E with
         | (if ?b then _ else _) = _ => destruct b
         | bind ?r _ = _ => destruct r; simpl in E
         | match ?x with _ => _ end = _ => destruct x
         | Ok _ = Ok _ => injection E as <-
         | Throw _ = Ok _ => discriminate E
         end; reflexivity.
Qed.

End Unconvertible.

(** C6 at a function, whole and inside a list after a string. *)
Lemma input_unconvertible_witness :
  typeOf (H:=ZHost) VFunction = VString "Function" /\
  mapM (fun x => input (H:=ZHost) x default_options) [VString "a"]
  = Ok [attr "S" (VString "a")] /\
  input (H:=ZHost) (VArray [VString "a"; VFunction; VNull]) default_options
  = Throw (UnableToConvert (VString "Function")).
Proof.
  split; [reflexivity|]. split; [reflexivity|].
  apply (input_unconvertible (H:=ZHost) VFunction [VString "a"]
           [attr "S" (VString "a")] [VNull] default_options);
    [right; reflexivity | reflexivity].
Defined.

(** ** One key per attribute *)

Section Tagged.
Context {H : Host}.

Lemma is_str_unique (t : value) (a b : string) :
  is_str t a = true -> is_str t b = true -> a = b.
Proof.
  destruct t; try discriminate. simpl. rewrite !String.eqb_eq. congruence.
Qed.

Lemma formatDate_tagged data o a : formatDate data o = Ok a -> tagged a = true.
Proof.
  unfold formatDate. intros E.
  destruct (dateFormat o), data as [| | | | |d| | | | |];
    try discriminate E;
    try (destruct (valid d); try discriminate E);
    try (injection E as <-; reflexivity);
    destruct (has _ _); discriminate.
Qed.

Lemma filterEmptySetValues_defined data v :
  is_undefined (get "values" data) = false ->
  filterEmptySetValues data = Ok v -> is_undefined v = false.
Proof.
  unfold filterEmptySetValues. intros D E.
  destruct (to_string_r (get "type" data)) as [key|]; [|discriminate].
  simpl in E.
  destruct (potentiallyEmptyTypes key) as [pe|]; [|discriminate].
  simpl in E. destruct (truthy pe).
  - destruct (elements (get "values" data)) as [l|]; [|discriminate].
    simpl in E. destruct (nonEmptyValues l); [|discriminate].
    simpl in E. now injection E as <-.
  - now injection E as <-.
Qed.

Lemma array_map_defined f values v :
  array_map f values = Ok v -> is_undefined v = false.
Proof.
  unfold array_map.
  destruct values as [| | | | | | | | |l|c props]; try discriminate.
  - destruct (mapM f l); [|discriminate]. simpl. intros E.
    now injection E as <-.
  - destruct (lookup "map" props); discriminate.
Qed.

Lemma formatSet_tagged data o a :
  set_type_known data = true -> is_undefined (get "values" data) = false ->
  formatSet data o = Ok a -> tagged a = true.
Proof.
  unfold set_type_known, formatSet. intros K D E.
  destruct (if convertEmptyValues o then _ else _) as [[values|]|e] eqn:F;
    simpl in E; try discriminate.
  - assert (V : is_undefined values = false).
    { destruct (convertEmptyValues o).
      - destruct (filterEmptySetValues data) as [v|] eqn:G; [|discriminate].
        simpl in F. destruct (length_is_0 v) as [[|]|]; try discriminate.
        simpl in F. injection F as <-.
        now apply (filterEmptySetValues_defined data).
      - now injection F as <-. }
    destruct (is_str (get "type" data) "String").
    { injection E as <-. simpl. now rewrite V. }
    destruct (is_str (get "type" data) "Binary").
    { injection E as <-. simpl. now rewrite V. }
    destruct (is_str (get "type" data) "Number"); [|discriminate K].
    destruct (array_map call_toString values) as [strings|] eqn:A;
      simpl in E; [|discriminate].
    injection E as <-. simpl.
    now rewrite (array_map_defined _ _ _ A).
  - injection E as <-. reflexivity.
Qed.

Lemma mapM_forallb {A B} (f : A -> result B) (p : B -> bool) l l' :
  (forall x b, In x l -> f x = Ok b -> p b = true) ->
  mapM f l = Ok l' -> forallb p l' = true.
Proof.
  revert l'. induction l as [|x l IH]; intros l' F E; simpl in E.
  - injection E as <-. reflexivity.
  - destruct (f x) as [b|e] eqn:X; [|discriminate]. simpl in E.
    destruct (mapM f l) as [bs|e]; [|discriminate]. simpl in E.
    injection E as <-. simpl.
    rewrite (F x b (or_introl eq_refl) X).
    apply IH; [|reflexivity]. intros y c I. apply F. now right.
Qed.

Lemma assign_forallb (p : string * value -> bool) k v M :
  p (k, v) = true -> forallb p M = true -> forallb p (assign k v M) = true.
Proof.
  intros Pv. unfold assign. destruct (String.eqb k "__proto__"); [easy|].
  induction M as [|[k' v'] M IH]; simpl; intros F.
  - now rewrite Pv.
  - apply andb_true_iff in F as [F1 F2].
    destruct (String.eqb k k'); simpl.
    + now rewrite Pv, F2.
    + now rewrite F1, IH.
Qed.

Lemma formatMap_loop_tagged o props :
  (forall k v a, In (k, v) props -> input v o = Ok a -> tagged a = true) ->
  forall M M', forallb (fun kv => tagged (snd kv)) M = true ->
  formatMap_loop o props M = Ok M' ->
  forallb (fun kv => tagged (snd kv)) M' = true.
Proof.
  induction props as [|[k v] rest IH]; intros F M M' FM E; simpl in E.
  - now injection E as <-.
  - destruct (input v o) as [a|e] eqn:X; [|discriminate]. simpl in E.
    destruct (sets_prototype k a).
    { destruct (formatMap_loop o rest M); discriminate. }
    refine (IH (fun k' v' a' I => F k' v' a' (or_intror I)) _ M' _ E).
    destruct (is_undefined a); [exact FM|].
    apply assign_forallb; [|exact FM].
    apply (F k v a (or_introl eq_refl) X).
Qed.

Lemma formatMap_tagged data o a :
  (forall c props, data = VObject c props ->
     forall k v a, In (k, v) props -> input v o = Ok a -> tagged a = true) ->
  formatMap input data o = Ok a -> tagged a = true.
Proof.
  intros F E. destruct data as [| | | | | | | | | |c props];
    try (simpl in E; injection E as <-; reflexivity);
    try discriminate E.
  rewrite formatMap_object in E.
  destruct (formatMap_loop o props []) as [M|e] eqn:L; [|discriminate].
  simpl in E. injection E as <-.
  pose proof (formatMap_loop_tagged o props (F c props eq_refl) [] M
                eq_refl L) as T.
  simpl. exact T.
Qed.

Lemma formatList_tagged data o a :
  (forall l, data = VArray l ->
     forall x a, In x l -> input x o = Ok a -> tagged a = true) ->
  formatList input data o = Ok a -> tagged a = true.
Proof.
  intros F E. destruct data as [| | | | | | | | |l|c props]; simpl in E;
    try (injection E as <-; reflexivity); try discriminate E.
  - destruct (mapM (fun x => input x o) l) as [l'|e] eqn:L; [|discriminate].
    simpl in E. injection E as <-.
    pose proof (mapM_forallb (fun x => input x o) tagged l l'
                  (F l eq_refl) L) as T.
    simpl. exact T.
  - destruct (lookup "length" props); [discriminate|].
    injection E as <-. reflexivity.
Qed.

(** C4, as the code has it.  When every value classified as [Set] declares
    the element type [String], [Binary] or [Number] and has a member
    [values], and every numeric wrapper holds a value, an attribute returned
    by [input] has exactly one key, one of the ten, with a payload that is
    not [undefined], and so has every attribute nested under [M] and [L]. *)
Theorem input_tagged (data : value) (o : ConverterOptions) (a : value)
    (Hsets : typed_sets data = true) (Hok : input data o = Ok a) :
  tagged a = true.
Proof.
  revert o a Hsets Hok.
  induction data as [| | | | | | | |w _| l IH | c props IH] using value_rect';
    intros o a Hsets Hok;
    try (destruct o as [[|] wn [|]]; simpl in Hok;
         unfold formatDate in Hok; simpl in Hok;
         repeat match type of Hok with
                | (if ?b then _ else _) = _ => destruct b
                | bind ?r _ = _ => destruct r; simpl in Hok
                | match ?x with _ => _ end = _ => destruct x
                | Ok _ = Ok _ => injection Hok as <-
                | Throw _ = Ok _ => discriminate Hok
                end; reflexivity).
  - (* numeric wrappers *)
    simpl in Hok. injection Hok as <-. simpl in *. now rewrite Hsets.
  - (* arrays *)
    rewrite input_VArray in Hok.
    destruct (mapM (fun x => input x o) l) as [l'|] eqn:L; [|discriminate].
    simpl in Hok. injection Hok as <-.
    pose proof (mapM_forallb (fun x => input x o) tagged l l') as T.
    simpl. apply T; [|exact L].
    intros x b I X. rewrite Forall_forall in IH. apply (IH x I o b); [|exact X].
    simpl in Hsets. rewrite forallb_forall in Hsets. now apply Hsets.
  - (* objects *)
    assert (Sub : is_str (typeOf (VObject c props)) "Set" = false ->
                  forall k v b, In (k, v) props ->
                    input v o = Ok b -> tagged b = true).
    { intros NS k v b I X. rewrite Forall_forall in IH.
      apply (IH (k, v) I o b); [|exact X].
      cbn [typed_sets] in Hsets. rewrite NS in Hsets.
      rewrite forallb_forall in Hsets. apply (Hsets (k, v) I). }
    rewrite input_eq in Hok. cbv zeta in Hok.
    destruct (classified (VObject c props)); [|discriminate Hok].
    cbn [negb] in Hok.
    destruct (is_str (typeOf (VObject c props)) "Date") eqn:TDate.
    { now apply formatDate_tagged in Hok. }
    destruct (is_str (typeOf (VObject c props)) "Object") eqn:TObject.
    { refine (formatMap_tagged _ o a _ Hok).
      intros c' props' E. injection E as <- <-. apply Sub.
      destruct (is_str (typeOf (VObject c props)) "Set") eqn:TSet; [|easy].
      pose proof (is_str_unique _ _ _ TObject TSet). discriminate. }
    destruct (is_str (typeOf (VObject c props)) "Array") eqn:TArray.
    { refine (formatList_tagged _ o a _ Hok). discriminate. }
    destruct (is_str (typeOf (VObject c props)) "Set") eqn:TSet.
    { cbn [typed_sets] in Hsets. rewrite TSet in Hsets.
      apply andb_true_iff in Hsets as [K D]. apply negb_true_iff in D.
      exact (formatSet_tagged _ o a K D Hok). }
    destruct (is_str (typeOf (VObject c props)) "String").
    { destruct (length_is_0 (VObject c props)) as [[|]|]; simpl in Hok;
        try discriminate; destruct (convertEmptyValues o); simpl in Hok;
        injection Hok as <-; reflexivity. }
    destruct (is_str (typeOf (VObject c props)) "Number"
              || is_str (typeOf (VObject c props)) "NumberValue").
    { unfold call_toString in Hok.
      destruct (to_string_r (VObject c props)); simpl in Hok;
        [|discriminate]. injection Hok as <-. reflexivity. }
    destruct (is_str (typeOf (VObject c props)) "Binary").
    { destruct (length_is_0 (VObject c props)) as [[|]|]; simpl in Hok;
        try discriminate; destruct (convertEmptyValues o); simpl in Hok;
        injection Hok as <-; reflexivity. }
    destruct (is_str (typeOf (VObject c props)) "Boolean").
    { injection Hok as <-. reflexivity. }
    destruct (is_str (typeOf (VObject c props)) "null").
    { injection Hok as <-. reflexivity. }
    destruct (negb (is_str (typeOf (VObject c props)) "undefined")
              && negb (is_str (typeOf (VObject c props)) "Function"));
      [|discriminate].
    refine (formatMap_tagged _ o a _ Hok).
    intros c' props' E. injection E as <- <-. now apply Sub.
Qed.

End Tagged.

(** C4, as the specification has it, fails on a native [Set] (and on any
    object marked as a set without a known element type): [input] returns
    the attribute [{}], which has no key. *)
Lemma input_Set_counterexample :
  ~ (forall (data : value (H:=ZHost)) (o : ConverterOptions) (a : value),
       input data o = Ok a -> tagged a = true).
Proof.
  intros C.
  specialize (C (VObject (Some "Set") []) default_options (obj []) eq_refl).
  discriminate C.
Qed.

(** C4 at [tagged_example]. *)
Lemma input_tagged_witness :
  typed_sets tagged_example = true /\
  input tagged_example default_options
  = Ok (obj [("M", obj [("tags", obj [("SS", VArray [VString "a"])]);
                        ("n", attr "N" (VString "1"));
                        ("l", attr "L" (VArray [input_null;
                                                attr "BOOL" (VBool true)]))])])
  /\
  tagged (obj [("M", obj [("tags", obj [("SS", VArray [VString "a"])]);
                          ("n", attr "N" (VString "1"));
                          ("l", attr "L" (VArray [input_null;
                                                  attr "BOOL" (VBool true)]))])])
  = true.
Proof.
  split; [reflexivity|]. split; [reflexivity|].
  exact (input_tagged (H:=ZHost) tagged_example default_options _
           eq_refl eq_refl).
Defined.

(** ** The loops over properties *)

Section Loops.
Context {H : Host}.

Lemma distinct_NoDup (l : list string) : distinct l = true -> NoDup l.
Proof.
  induction l as [|k r IH]; simpl; [constructor|].
  rewrite andb_true_iff, negb_true_iff. intros [N D].
  constructor; [|now apply IH].
  intros I. assert (E : existsb (String.eqb k) r = true).
  { apply existsb_exists. exists k. split; [exact I|apply String.eqb_refl]. }
  congruence.
Qed.

Lemma existsb_eqb_In (k : string) (names : list string) :
  existsb (String.eqb k) names = false -> ~ In k names.
Proof.
  intros E I. assert (T : existsb (String.eqb k) names = true).
  { apply existsb_exists. exists k. split; [exact I|apply String.eqb_refl]. }
  congruence.
Qed.

Lemma sets_prototype_other (k : string) (v : value) :
  k <> "__proto__" -> sets_prototype k v = false.
Proof.
  intros N. unfold sets_prototype.
  now destruct (String.eqb_spec k "__proto__").
Qed.

Lemma assign_fresh (k : string) (v : value) (M : list (string * value)) :
  k <> "__proto__" -> ~ In k (map fst M) ->
  assign k v M = (M ++ [(k, v)])%list.
Proof.
  intros P. unfold assign.
  destruct (String.eqb_spec k "__proto__") as [E|_]; [contradiction|].
  induction M as [|[k' v'] M IH]; simpl; intros N; [reflexivity|].
  destruct (String.eqb_spec k k') as [->|_].
  - exfalso. apply N. now left.
  - rewrite IH; [reflexivity|]. intros I. apply N. now right.
Qed.

Lemma NoDup_step (acc : list string) (k : string) (rest : list string) :
  NoDup (acc ++ k :: rest) ->
  ~ In k acc /\ NoDup ((acc ++ [k]) ++ rest).
Proof.
  intros N. split.
  - apply NoDup_remove_2 in N. intros I. apply N. apply in_or_app. now left.
  - now rewrite <- app_assoc.
Qed.

Lemma formatMap_loop_spec o props :
  ~ In "__proto__" (map fst props) ->
  forall acc M', NoDup (map fst acc ++ map fst props) ->
  formatMap_loop o props acc = Ok M' <->
  exists M, M' = (acc ++ M)%list /\ Forall2 (marshalled o) props M.
Proof.
  induction props as [|[k v] rest IH]; intros P acc M' N; simpl.
  - split.
    + intros E. injection E as <-. exists []. rewrite app_nil_r.
      split; [reflexivity|constructor].
    + intros (M & -> & F). inversion F. now rewrite app_nil_r.
  - simpl in N, P. destruct (NoDup_step _ _ _ N) as [Fresh N'].
    assert (Pk : k <> "__proto__") by (intros ->; apply P; now left).
    assert (Pr : ~ In "__proto__" (map fst rest))
      by (intros I; apply P; now right).
    split.
    + destruct (input v o) as [f|e] eqn:I; [|discriminate]. simpl.
      rewrite (sets_prototype_other k f Pk).
      rewrite (input_defined v o f I), (assign_fresh k f acc Pk Fresh).
      intros E. apply (IH Pr) in E as (M & -> & F); [|now rewrite map_app].
      exists ((k, f) :: M). rewrite <- app_assoc. split; [reflexivity|].
      constructor; [now split|exact F].
    + intros (M & -> & F). inversion F as [|? [k' f] ? M0 [Ek I] F0]; subst.
      simpl in Ek, I. subst k'. rewrite I. simpl.
      rewrite (sets_prototype_other k f Pk).
      rewrite (input_defined v o f I), (assign_fresh k f acc Pk Fresh).
      apply (IH Pr); [now rewrite map_app|].
      exists M0. now rewrite <- app_assoc.
Qed.

Lemma formatMap_loop_Throw o props k v e :
  In (k, v) props -> input v o = Throw e ->
  forall acc, exists e', formatMap_loop o props acc = Throw e'.
Proof.
  intros I X. induction props as [|[k' v'] rest IH]; [destruct I|].
  intros acc. simpl. destruct I as [E|I].
  - injection E as -> ->. rewrite X. now exists e.
  - destruct (input v' o) as [f|e']; [|now exists e']. simpl.
    destruct (sets_prototype k' f); [|now apply IH].
    destruct (IH I acc) as [e' ->]. now exists e'.
Qed.

Lemma output_M_loop_spec o m :
  ~ In "__proto__" (map fst m) ->
  forall acc M', NoDup (map fst acc ++ map fst m) ->
  output_M_loop o m acc = Ok M' <->
  exists m', M' = (acc ++ m')%list /\ Forall2 (unmarshalled o) m m'.
Proof.
  induction m as [|[k a] rest IH]; intros P acc M' N; simpl.
  - split.
    + intros E. injection E as <-. exists []. rewrite app_nil_r.
      split; [reflexivity|constructor].
    + intros (m' & -> & F). inversion F. now rewrite app_nil_r.
  - simpl in N, P. destruct (NoDup_step _ _ _ N) as [Fresh N'].
    assert (Pk : k <> "__proto__") by (intros ->; apply P; now left).
    assert (Pr : ~ In "__proto__" (map fst rest))
      by (intros I; apply P; now right).
    split.
    + destruct (output a o) as [v|e] eqn:O; [|discriminate]. simpl.
      rewrite (sets_prototype_other k v Pk), (assign_fresh k v acc Pk Fresh).
      intros E. apply (IH Pr) in E as (m' & -> & F); [|now rewrite map_app].
      exists ((k, v) :: m'). rewrite <- app_assoc. split; [reflexivity|].
      constructor; [now split|exact F].
    + intros (m' & -> & F). inversion F as [|? [k' v] ? m0 [Ek O] F0]; subst.
      simpl in Ek, O. subst k'. rewrite O. simpl.
      rewrite (sets_prototype_other k v Pk), (assign_fresh k v acc Pk Fresh).
      apply (IH Pr); [now rewrite map_app|].
      exists m0. now rewrite <- app_assoc.
Qed.

Lemma mapM_Forall2 {A B} (f : A -> result B) l l' :
  mapM f l = Ok l' <-> Forall2 (fun x y => f x = Ok y) l l'.
Proof.
  revert l'. induction l as [|x l IH]; intros l'; simpl.
  - split.
    + intros E. injection E as <-. constructor.
    + intros F. now inversion F.
  - split.
    + destruct (f x) as [y|e] eqn:X; [|discriminate]. simpl.
      destruct (mapM f l) as [ys|e] eqn:Y; [|discriminate].
      simpl. intros E. injection E as <-.
      constructor; [exact X|]. now apply IH.
    + intros F. inversion F as [|? y ? ys X F']; subst.
      rewrite X. simpl. apply IH in F'. now rewrite F'.
Qed.

Lemma Forall2_keys {A B} (R : string * A -> string * B -> Prop) m m' :
  Forall2 R m m' -> (forall x y, R x y -> fst y = fst x) ->
  map fst m' = map fst m.
Proof.
  induction 1 as [|x y m m' r _ IH]; intros K; simpl; [reflexivity|].
  now rewrite (K x y r), IH.
Qed.

Lemma lookup_absent k (m : list (string * value)) :
  existsb (String.eqb k) (map fst m) = false -> lookup k m = None.
Proof.
  induction m as [|[k' v] m IH]; simpl; [reflexivity|].
  rewrite orb_false_iff. intros [E F]. now rewrite E, IH.
Qed.

(** a value other than [undefined] and a function that is classified and
    not as one of the reserved types is marshalled by [formatMap] *)
Lemma input_unreserved data o :
  classified data = true ->
  existsb (is_str (typeOf data)) reserved_types = false ->
  input data o = formatMap input data o.
Proof.
  intros C M. rewrite input_eq. cbv zeta. rewrite C. cbn [negb].
  simpl in M. repeat (apply orb_false_iff in M as [?E M]).
  rewrite E, E0, E1, E2, E3, E4, E5, E6, E7, E8, E9. simpl.
  now destruct (is_str _ "Object").
Qed.

(** the entries and elements of a value that is carried through by [input]
    and [output] to [f] of itself *)
Lemma carried_entries (o : ConverterOptions) (f : value -> value) props :
  Forall (fun kv => exists a, input (snd kv) o = Ok a
                              /\ output a o = Ok (f (snd kv))) props ->
  exists M,
    Forall2 (marshalled o) props M
    /\ Forall2 (unmarshalled o) M
         (map (fun kv => (fst kv, f (snd kv))) props).
Proof.
  induction 1 as [|[k v] props (a & I & O) _ (M & F & F')].
  - exists []. split; constructor.
  - exists ((k, a) :: M). split; constructor; try assumption; now split.
Qed.

Lemma carried_list (o : ConverterOptions) (f : value -> value) l :
  Forall (fun v => exists a, input v o = Ok a /\ output a o = Ok (f v)) l ->
  exists l', mapM (fun x => input x o) l = Ok l'
             /\ mapM (fun x => output x o) l' = Ok (map f l).
Proof.
  induction 1 as [|v l (a & I & O) _ (l' & E & E')].
  - now exists [].
  - exists (a :: l'). simpl. now rewrite I, E, O, E'.
Qed.

(** an object without special names that is carried entry by entry is
    carried as a whole *)
Lemma carried_object (o : ConverterOptions) (f : value -> value) props :
  NoDup (map fst props) -> ~ In "__proto__" (map fst props) ->
  classified (obj props) = true ->
  existsb (is_str (typeOf (obj props))) reserved_types = false ->
  Forall (fun kv => exists a, input (snd kv) o = Ok a
                              /\ output a o = Ok (f (snd kv))) props ->
  exists M,
    formatMap_loop o props [] = Ok M
    /\ input (obj props) o = Ok (attr "M" (obj M))
    /\ output (attr "M" (obj M)) o
       = Ok (obj (map (fun kv => (fst kv, f (snd kv))) props)).
Proof.
  intros Cd Cp Cc Cm F.
  destruct (carried_entries o f props F) as (M & F1 & F2).
  assert (K : map fst M = map fst props).
  { apply (Forall2_keys _ props M F1). now intros x y [E _]. }
  assert (E : formatMap_loop o props [] = Ok M).
  { apply (formatMap_loop_spec o props Cp [] M Cd). now exists M. }
  exists M. split; [exact E|]. split.
  - rewrite (input_unreserved _ o Cc Cm).
    unfold obj at 1. now rewrite formatMap_object, E.
  - unfold attr, obj. rewrite output_cons.
    change (output_key "M" (VObject (Some "Object") M) o)
      with (Some (map <- output_M_loop o M [] ;; Ok (obj map))).
    assert (E' : output_M_loop o M []
                 = Ok (map (fun kv => (fst kv, f (snd kv))) props)).
    { apply (output_M_loop_spec o M); [now rewrite K|simpl; now rewrite K|].
      now eexists. }
    now rewrite E'.
Qed.

End Loops.

(** ** Round trip *)

Section RoundTrip.
Context {H : Host} {L : HostLaws H}.

Lemma convertible_object c props :
  convertible (VObject c props) = true ->
  c = Some "Object" /\ NoDup (map fst props)
  /\ ~ In "__proto__" (map fst props)
  /\ classified (obj props) = true
  /\ existsb (is_str (typeOf (obj props))) reserved_types = false
  /\ (forall kv, In kv props -> convertible (snd kv) = true).
Proof.
  destruct c as [c|]; [|discriminate]. cbn [convertible].
  rewrite !andb_true_iff, !negb_true_iff.
  intros [[[[Cc Cd] Cp] [Ck Cm]] Cv].
  apply String.eqb_eq in Cc. subst c.
  repeat split; try assumption.
  - now apply distinct_NoDup.
  - now apply existsb_eqb_In.
  - now apply forallb_forall.
Qed.

Lemma carried_value (v : value) :
  convertible v = true -> carried default_options v.
Proof.
  induction v as [| |b|n|s|d|t e| |w _|l IH|c props IH] using value_rect';
    intros C; try discriminate C.
  - now exists input_null.
  - exists (attr "BOOL" (VBool b)). now destruct b.
  - simpl in C. apply andb_true_iff in C as [Cf Cz].
    apply negb_true_iff in Cz.
    exists (attr "N" (VString (number_toString n))).
    split; [reflexivity|]. split; [reflexivity|].
    unfold attr, obj. rewrite output_cons.
    change (output_key "N" (VString (number_toString n)) default_options)
      with (Some (if negb (truthy (VString (number_toString n)))
                  then Ok VNull
                  else convertNumber (VString (number_toString n)) false)).
    cbn [truthy].
    destruct (String.eqb_spec (number_toString n) "") as [E|_].
    { now apply number_toString_nonempty in E. }
    simpl. now rewrite (Number_toString_inv n Cf Cz).
  - exists (attr "S" (VString s)). repeat split.
    simpl. now rewrite andb_false_r.
  - simpl in C. exists (attr "S" (VString (toISOString d))).
    repeat split. simpl. unfold formatDate. simpl. now rewrite C.
  - exists (attr "B" (VBinary t e)). repeat split.
    + destruct t; try discriminate C; simpl; now rewrite andb_false_r.
    + destruct t; try discriminate C; reflexivity.
  - (* arrays *)
    simpl in C. rewrite forallb_forall in C.
    assert (F : Forall (fun v => exists a,
                          input v default_options = Ok a
                          /\ output a default_options = Ok (restored v)) l).
    { rewrite Forall_forall in *. intros x I.
      destruct (IH x I (C x I)) as (a & A & _ & O). now exists a. }
    destruct (carried_list _ restored l F) as (l' & E & E').
    exists (attr "L" (VArray l')). rewrite input_VArray, E.
    repeat split. unfold attr, obj. rewrite output_cons.
    change (output_key "L" (VArray l') default_options)
      with (Some (list <- mapM (fun x => output x default_options) l' ;;
                  Ok (VArray list))).
    now rewrite E'.
  - (* objects *)
    destruct (convertible_object c props C) as (-> & Cd & Cp & Cc & Cm & Cv).
    assert (F : Forall (fun kv => exists a,
                          input (snd kv) default_options = Ok a
                          /\ output a default_options
                             = Ok (restored (snd kv))) props).
    { rewrite Forall_forall in *. intros kv I.
      destruct (IH kv I (Cv kv I)) as (a & A & _ & O). now exists a. }
    destruct (carried_object default_options restored props Cd Cp Cc Cm F)
      as (M & _ & I & O).
    exists (attr "M" (obj M)). now repeat split.
Qed.

(** C1, as the code has it.  A record built from strings, finite numbers
    other than [-0], booleans, null, valid dates, [Buffer] or [Uint8Array]
    payloads, arrays and plain objects, where no object has a property
    called [__proto__] and none is classified, through a property
    [wrapperName] or [constructor], as one of the reserved types, comes
    back from [unmarshall (marshall R)] under the default options as itself,
    with every date replaced by its ISO string. *)
Theorem round_trip_restores (props : list (string * value))
    (Hc : convertible (obj props) = true) :
  round_trip (obj props) default_options = Ok (restored (obj props)).
Proof.
  destruct (convertible_object _ props Hc) as (_ & Cd & Cp & Cc & Cm & _).
  destruct (carried_value (obj props) Hc) as (a & I & _ & O).
  unfold round_trip, marshall. rewrite I. simpl.
  rewrite (input_unreserved _ _ Cc Cm) in I.
  unfold obj at 1 in I. rewrite formatMap_object in I.
  destruct (formatMap_loop _ props []) as [M|e]; [|discriminate].
  simpl in I. injection I as <-. exact O.
Qed.

End RoundTrip.

(** C1 at [user_example]. *)
Lemma round_trip_restores_witness :
  convertible user_example = true /\
  round_trip user_example default_options = Ok (restored user_example).
Proof.
  split; [reflexivity|].
  unfold user_example.
  apply (round_trip_restores (H:=ZHost) (L:=ZHostLaws)). reflexivity.
Defined.

(** C1, as the specification has it, fails on a record that holds a plain
    object with the property [wrapperName: "null"] and an [ArrayBuffer]:
    the object comes back as [null] and the payload as a [Buffer]. *)
Lemma round_trip_counterexample :
  ~ (forall props : list (string * value (H:=ZHost)),
       plain (obj props) = true ->
       round_trip (obj props) default_options = Ok (restored (obj props))).
Proof.
  intros C.
  specialize (C [("tag", obj [("wrapperName", VString "null")]);
                 ("blob", VBinary ArrayBuffer [1%Z])] eq_refl).
  vm_compute in C. discriminate C.
Qed.

(** ** Objects with a property that does not convert *)

Section Properties_of_objects.
Context {H : Host}.

(** C5, as the code has it.  On an object that has no property called
    [__proto__], [formatMap] marshals every own property: it returns a map
    exactly when every property converts, and the map then has one entry
    for each property, in order, holding the property's attribute; nothing
    is omitted.  A property that holds [undefined] makes the whole call end
    in an exception. *)
Theorem formatMap_every_property (c : option string)
    (props : list (string * value)) (o : ConverterOptions)
    (Hd : NoDup (map fst props))
    (Hp : ~ In "__proto__" (map fst props)) :
  (forall M, formatMap input (VObject c props) o = Ok (attr "M" (obj M)) <->
             Forall2 (marshalled o) props M) /\
  (forall a, formatMap input (VObject c props) o = Ok a ->
             exists M, a = attr "M" (obj M)) /\
  (forall k, In (k, VUndefined) props ->
             exists e, formatMap input (VObject c props) o = Throw e).
Proof.
  rewrite formatMap_object. split; [|split].
  - intros M. pose proof (formatMap_loop_spec o props Hp [] M Hd) as S.
    simpl in S. split.
    + destruct (formatMap_loop o props []) as [M'|e]; [|discriminate].
      simpl. intros E. injection E as <-.
      destruct S as [S _]. destruct (S eq_refl) as (M0 & -> & F). exact F.
    + intros F. destruct S as [_ S]. rewrite S; [reflexivity|].
      now exists M.
  - intros a. destruct (formatMap_loop o props []) as [M'|e]; [|discriminate].
    simpl. intros E. injection E as <-. now exists M'.
  - intros k I.
    destruct (formatMap_loop_Throw o props k VUndefined
                (UnableToConvert (VString "undefined")) I
                (input_unconvertible_type VUndefined o (or_introl eq_refl)) [])
      as [e ->].
    now exists e.
Qed.

End Properties_of_objects.

(** C5, as the specification has it, fails on [{a: "x", b: undefined}]:
    [input] returns no map, it throws. *)
Lemma undefined_property_counterexample :
  ~ (exists a,
       input (H:=ZHost) (obj [("a", VString "x"); ("b", VUndefined)])
         default_options = Ok a).
Proof. intros [a E]. discriminate E. Qed.

(** C5 at [{a: "x", n: null}]. *)
Lemma formatMap_every_property_witness :
  NoDup (map fst [("a", VString (H:=ZHost) "x"); ("n", VNull)]) /\
  ~ In "__proto__" (map fst [("a", VString (H:=ZHost) "x"); ("n", VNull)]) /\
  formatMap input (obj [("a", VString "x"); ("n", VNull)]) default_options
  = Ok (attr "M" (obj [("a", attr "S" (VString "x")); ("n", input_null)])).
Proof.
  assert (N : NoDup (map fst [("a", VString (H:=ZHost) "x"); ("n", VNull)])).
  { repeat constructor; simpl; intuition discriminate. }
  assert (P : ~ In "__proto__"
                (map fst [("a", VString (H:=ZHost) "x"); ("n", VNull)])).
  { simpl; intuition discriminate. }
  split; [exact N|]. split; [exact P|].
  apply (formatMap_every_property (H:=ZHost) (Some "Object") _
           default_options N P).
  repeat constructor.
Defined.

(** ** Further properties of [input] *)

Section Marshalling.
Context {H : Host}.

Lemma formatMap_loop_ext (o1 o2 : ConverterOptions) props :
  (forall k v, In (k, v) props -> input v o1 = input v o2) ->
  forall acc, formatMap_loop o1 props acc = formatMap_loop o2 props acc.
Proof.
  induction props as [|[k v] rest IH]; intros E acc; simpl; [reflexivity|].
  rewrite (E k v (or_introl eq_refl)).
  destruct (input v o2) as [a|e]; simpl; [|reflexivity].
  assert (R : forall acc,
             formatMap_loop o1 rest acc = formatMap_loop o2 rest acc).
  { apply IH. intros k' v' I. apply (E k' v'). now right. }
  destruct (sets_prototype k a); [now rewrite R|apply R].
Qed.

Lemma formatMap_ext (o1 o2 : ConverterOptions) data :
  (forall c props, data = VObject c props ->
     forall k v, In (k, v) props -> input v o1 = input v o2) ->
  formatMap input data o1 = formatMap input data o2.
Proof.
  intros E. destruct data as [| | | | | | | | | |c props]; try reflexivity.
  rewrite !formatMap_object.
  now rewrite (formatMap_loop_ext o1 o2 props (E c props eq_refl)).
Qed.

Lemma formatList_ext (o1 o2 : ConverterOptions) data :
  (forall l, data = VArray l ->
     forall x, In x l -> input x o1 = input x o2) ->
  formatList input data o1 = formatList input data o2.
Proof.
  intros E. destruct data as [| | | | | | | | |l|]; try reflexivity.
  simpl.
  now rewrite (mapM_ext (fun x => input x o1) (fun x => input x o2) l
                 (E l eq_refl)).
Qed.

(** X1.  [input] does not read [wrapNumbers]: two option records with the
    same [convertEmptyValues] and [dateFormat] give the same result on
    every value. *)
Theorem input_ignores_wrapNumbers (data : value) (o1 o2 : ConverterOptions)
    (Hc : convertEmptyValues o1 = convertEmptyValues o2)
    (Hd : dateFormat o1 = dateFormat o2) :
  input data o1 = input data o2.
Proof.
  destruct o1 as [c1 w1 d1], o2 as [c2 w2 d2]. simpl in Hc, Hd. subst c2 d2.
  induction data as [| | | | | | | | |l IH|c props IH] using value_rect';
    try reflexivity.
  - rewrite !input_VArray.
    rewrite (mapM_ext _ (fun x => input x
               {| convertEmptyValues := c1; wrapNumbers := w2;
                  dateFormat := d1 |}) l); [reflexivity|].
    rewrite Forall_forall in IH. exact IH.
  - rewrite (input_eq _ {| convertEmptyValues := c1; wrapNumbers := w1;
                            dateFormat := d1 |}).
    rewrite (input_eq _ {| convertEmptyValues := c1; wrapNumbers := w2;
                            dateFormat := d1 |}).
    cbv zeta.
    assert (M : formatMap input (VObject c props)
                  {| convertEmptyValues := c1; wrapNumbers := w1;
                     dateFormat := d1 |}
                = formatMap input (VObject c props)
                    {| convertEmptyValues := c1; wrapNumbers := w2;
                       dateFormat := d1 |}).
    { apply formatMap_ext. intros c' props' E k v I. injection E as <- <-.
      rewrite Forall_forall in IH. apply (IH (k, v) I). }
    rewrite M. reflexivity.
Qed.

(** X2.  The first element of an array, or the first property of an object,
    that fails to convert decides the outcome: [input] on the array and
    [formatMap] on the object throw that element's error. *)
Theorem first_failure_propagates (o : ConverterOptions) (e : error)
    (pre post : list value) (x : value)
    (ppre ppost : list (string * value)) (k : string) (c : option string)
    (Hpre : Forall (fun y => exists a, input y o = Ok a) pre)
    (Hppre : Forall (fun kv => exists a, input (snd kv) o = Ok a) ppre)
    (Hx : input x o = Throw e) :
  input (VArray (pre ++ x :: post)) o = Throw e /\
  formatMap input (VObject c (ppre ++ (k, x) :: ppost)) o = Throw e.
Proof.
  split.
  - rewrite input_VArray.
    destruct (mapM_Ok (fun y => input y o) pre Hpre) as [pre' P].
    now rewrite (mapM_app_Throw _ pre pre' x post e P Hx).
  - rewrite formatMap_object.
    assert (G : forall acc,
               formatMap_loop o (ppre ++ (k, x) :: ppost) acc = Throw e).
    { induction Hppre as [|[k' v'] rest [a A] _ IH]; intros acc; simpl.
      - now rewrite Hx.
      - simpl in A. rewrite A. simpl.
        destruct (sets_prototype k' a); [now rewrite IH|apply IH]. }
    now rewrite G.
Qed.

(** X3.  [input] on an array returns an [L] attribute exactly when every
    element converts; the list under [L] then holds the elements'
    attributes, one for one and in order. *)
Theorem input_array_elementwise (l : list value) (o : ConverterOptions)
    (a : value) :
  input (VArray l) o = Ok a <->
  exists l', a = attr "L" (VArray l')
             /\ Forall2 (fun x y => input x o = Ok y) l l'.
Proof.
  rewrite input_VArray.
  assert (G : forall l', mapM (fun x => input x o) l = Ok l' <->
                         Forall2 (fun x y => input x o = Ok y) l l').
  { induction l as [|x l IH]; intros l'; simpl.
    - split.
      + intros E. injection E as <-. constructor.
      + intros F. now inversion F.
    - split.
      + destruct (input x o) as [y|e] eqn:X; [|discriminate]. simpl.
        destruct (mapM (fun x => input x o) l) as [ys|e] eqn:Y;
          [|discriminate].
        simpl. intros E. injection E as <-.
        constructor; [exact X|]. now apply IH.
      + intros F. inversion F as [|? y ? ys X F']; subst.
        rewrite X. simpl. apply IH in F'. now rewrite F'. }
  split.
  - destruct (mapM (fun x => input x o) l) as [l'|e] eqn:M; [|discriminate].
    simpl. intros E. injection E as <-. exists l'. split; [reflexivity|].
    now apply G.
  - intros (l' & -> & F). apply G in F. now rewrite F.
Qed.

(** X4.  [marshall] returns [undefined], not a record and not an error, for
    a string, a number, a boolean, [null] and every array that converts. *)
Theorem marshall_not_an_object (o : ConverterOptions) (s : string)
    (n : number) (b : bool) (l : list value) :
  marshall (VString s) o = Ok VUndefined /\
  marshall (VNumber n) o = Ok VUndefined /\
  marshall (VBool b) o = Ok VUndefined /\
  marshall VNull o = Ok VUndefined /\
  (forall a, input (VArray l) o = Ok a ->
             marshall (VArray l) o = Ok VUndefined).
Proof.
  unfold marshall. repeat split.
  - simpl. destruct (_ && _); reflexivity.
  - intros a E. rewrite E.
    rewrite input_VArray in E.
    destruct (mapM (fun x => input x o) l); [|discriminate].
    simpl in E. now injection E as <-.
Qed.

End Marshalling.

(** X1 at a list with a number and an empty string. *)
Lemma input_ignores_wrapNumbers_witness :
  let o1 := {| convertEmptyValues := true; wrapNumbers := true;
               dateFormat := unix |} in
  let o2 := {| convertEmptyValues := true; wrapNumbers := false;
               dateFormat := unix |} in
  convertEmptyValues o1 = convertEmptyValues o2 /\
  dateFormat o1 = dateFormat o2 /\
  input (H:=ZHost) (VArray [VNumber (Some 3%Z); VString ""]) o1
  = input (VArray [VNumber (Some 3%Z); VString ""]) o2.
Proof.
  split; [reflexivity|]. split; [reflexivity|].
  apply (input_ignores_wrapNumbers (H:=ZHost)); reflexivity.
Defined.

(** X2 at a function after a string. *)
Lemma first_failure_propagates_witness :
  Forall (fun y => exists a, input (H:=ZHost) y default_options = Ok a)
    [VString "a"] /\
  input (H:=ZHost) VFunction default_options
  = Throw (UnableToConvert (VString "Function")) /\
  formatMap input
    (obj [("a", VString "a"); ("f", VFunction); ("z", VNull)])
    default_options
  = Throw (UnableToConvert (VString "Function")).
Proof.
  assert (P : Forall (fun y => exists a,
                        input (H:=ZHost) y default_options = Ok a)
                [VString "a"]).
  { repeat constructor. now exists (attr "S" (VString "a")). }
  split; [exact P|]. split; [reflexivity|].
  apply (first_failure_propagates (H:=ZHost) default_options
           (UnableToConvert (VString "Function")) [VString "a"] [] VFunction
           [("a", VString "a")] [("z", VNull)] "f" (Some "Object")).
  - exact P.
  - repeat constructor. now exists (attr "S" (VString "a")).
  - reflexivity.
Defined.

(** ** Sets on the way in *)

Section Sets.
Context {H : Host}.

Lemma nonEmptyValues_strings (l : list string) :
  nonEmptyValues (map VString l) = Ok (map VString (filter nonempty l)).
Proof.
  induction l as [|s l IH]; [reflexivity|].
  simpl. rewrite IH. simpl. unfold nonempty at 2.
  destruct s; reflexivity.
Qed.

Lemma map_eq_nil_length {A B} (f : A -> B) (l : list A) :
  Nat.eqb (List.length (map f l)) 0
  = match l with [] => true | _ => false end.
Proof. now destruct l. Qed.

(** X5.  A string set is marshalled to [SS] with its values as they are;
    with [convertEmptyValues] the empty strings are dropped first, in order,
    and a set left without values becomes [{NULL: true}]. *)
Theorem input_string_set (l : list string) (o : ConverterOptions) :
  input (a_set "String" (map VString l)) o =
  if convertEmptyValues o then
    match filter nonempty l with
    | [] => Ok input_null
    | kept => Ok (obj [("SS", VArray (map VString kept))])
    end
  else Ok (obj [("SS", VArray (map VString l))]).
Proof.
  destruct o as [[|] w d]; [|reflexivity].
  change (input (a_set "String" (map VString l))
            {| convertEmptyValues := true; wrapNumbers := w;
               dateFormat := d |})
    with (filtered <-
            (values <- (kept <- nonEmptyValues (map VString l) ;;
                        Ok (VArray kept)) ;;
             empty <- length_is_0 values ;;
             Ok (if empty then None else Some values)) ;;
          match filtered with
          | None => Ok input_null
          | Some values => Ok (obj [("SS", values)])
          end).
  rewrite nonEmptyValues_strings. simpl. rewrite map_eq_nil_length.
  now destruct (filter nonempty l).
Qed.

Lemma mapM_call_toString_numbers (l : list number) :
  mapM call_toString (map VNumber l)
  = Ok (map (fun n => VString (number_toString n)) l).
Proof.
  induction l as [|n l IH]; [reflexivity|]. simpl. now rewrite IH.
Qed.

(** X6.  A number set is marshalled to [NS] with every number printed, in
    order; [convertEmptyValues] changes this only for a set that has no
    values, which becomes [{NULL: true}]. *)
Theorem input_number_set (l : list number) (o : ConverterOptions) :
  input (a_set "Number" (map VNumber l)) o =
  if convertEmptyValues o && match l with [] => true | _ => false end
  then Ok input_null
  else Ok (obj [("NS", VArray (map (fun n => VString (number_toString n)) l))]).
Proof.
  destruct o as [[|] w d].
  - change (input (a_set "Number" (map VNumber l))
              {| convertEmptyValues := true; wrapNumbers := w;
                 dateFormat := d |})
      with (filtered <-
              (empty <- length_is_0 (VArray (map VNumber l)) ;;
               Ok (if empty then None else Some (VArray (map VNumber l)))) ;;
            match filtered with
            | None => Ok input_null
            | Some values =>
                strings <- array_map call_toString values ;;
                Ok (obj [("NS", strings)])
            end).
    simpl. rewrite map_eq_nil_length. destruct l as [|n l]; [reflexivity|].
    simpl bind at 1. cbv iota beta.
    unfold array_map. now rewrite mapM_call_toString_numbers.
  - change (input (a_set "Number" (map VNumber l))
              {| convertEmptyValues := false; wrapNumbers := w;
                 dateFormat := d |})
      with (strings <- array_map call_toString (VArray (map VNumber l)) ;;
            Ok (obj [("NS", strings)])).
    unfold array_map. now rewrite mapM_call_toString_numbers.
Qed.

(** X7.  [detectType] looks at the first value only: it stores [String] for
    a string, [Number] for a number or a numeric wrapper, [Binary] for a
    binary container, whatever follows, and throws the set-composition error
    when there is no first value or it is [null], a boolean, an array or a
    date. *)
Theorem detectType_first_value (this : DynamoDBSet) (s : string)
    (n : number) (w : value) (t : BinaryType) (e : list Z) (b : bool)
    (l rest : list value) (d : Date) :
  let given x := {| values := x :: rest; wrapperName := wrapperName this;
                    type := type this |} in
  let typed x ty := Ok {| values := x :: rest;
                          wrapperName := wrapperName this;
                          type := VString ty |} in
  detectType (given (VString s)) = typed (VString s) "String" /\
  detectType (given (VNumber n)) = typed (VNumber n) "Number" /\
  detectType (given (VNumberValue w)) = typed (VNumberValue w) "Number" /\
  detectType (given (VBinary t e)) = typed (VBinary t e) "Binary" /\
  detectType {| values := []; wrapperName := wrapperName this;
                type := type this |} = Throw InvalidSet /\
  detectType (given VNull) = Throw InvalidSet /\
  detectType (given (VBool b)) = Throw InvalidSet /\
  detectType (given (VArray l)) = Throw InvalidSet /\
  detectType (given (VDate d)) = Throw InvalidSet.
Proof. repeat split. Qed.

End Sets.

(** ** Further properties of [output] *)

Section Unmarshalling.
Context {H : Host}.

Lemma output_key_None (key : string) (payload : value)
    (o : ConverterOptions) :
  recognised key = false -> output_key key payload o = None.
Proof.
  unfold recognised, attribute_keys, output_key. simpl.
  intros R. repeat (apply orb_false_iff in R as [?E R]).
  now rewrite E, E0, E1, E2, E3, E4, E5, E6, E7, E8.
Qed.

Lemma output_key_Some (key : string) (payload : value)
    (o : ConverterOptions) :
  recognised key = true -> exists r, output_key key payload o = Some r.
Proof.
  unfold recognised, attribute_keys, output_key. simpl. intros R.
  repeat match goal with
         | |- context [if String.eqb key ?k then _ else _] =>
             destruct (String.eqb key k); [eexists; reflexivity|]
         end.
  discriminate R.
Qed.

Lemma output_skips c pre rest o :
  forallb (fun kv => negb (recognised (fst kv))) pre = true ->
  output (VObject c (pre ++ rest)) o = output (VObject c rest) o.
Proof.
  induction pre as [|[k p] pre IH]; cbn [app forallb fst]; [reflexivity|].
  rewrite andb_true_iff, negb_true_iff. intros [R F].
  now rewrite output_cons, (output_key_None k p o R), IH.
Qed.

(** X8.  Of several keys in one attribute, [output] honours the first
    recognised one in enumeration order: keys it does not know before it
    are skipped, everything after it is ignored. *)
Theorem output_first_recognised_key (c : option string)
    (pre rest : list (string * value)) (key : string) (payload : value)
    (o : ConverterOptions)
    (Hpre : forallb (fun kv => negb (recognised (fst kv))) pre = true)
    (Hkey : recognised key = true) :
  output (VObject c (pre ++ (key, payload) :: rest)) o
  = output (attr key payload) o.
Proof.
  rewrite (output_skips c pre _ o Hpre).
  unfold attr, obj. rewrite !output_cons.
  now destruct (output_key_Some key payload o Hkey) as [r ->].
Qed.

(** X9.  An attribute without any recognised key is unmarshalled to
    [undefined], with no error; so is every value that is not an object. *)
Theorem output_no_recognised_key (c : option string)
    (props : list (string * value)) (data : value) (o : ConverterOptions)
    (Hprops : forallb (fun kv => negb (recognised (fst kv))) props = true) :
  output (VObject c props) o = Ok VUndefined /\
  match data with
  | VObject _ _ => True
  | _ => output data o = Ok VUndefined
  end.
Proof.
  split.
  - rewrite <- (app_nil_r props), (output_skips c props [] o Hprops).
    apply output_nil.
  - now destruct data.
Qed.

(** X10.  [output] on an [N] attribute returns [null] exactly when the
    payload is falsy (the empty string, a missing payload, [null]). *)
Theorem output_N_null (payload : value) (o : ConverterOptions) :
  output (attr "N" payload) o = Ok VNull <-> truthy payload = false.
Proof.
  unfold attr, obj. rewrite output_cons.
  change (output_key "N" payload o)
    with (Some (if negb (truthy payload) then Ok VNull
                else convertNumber payload (wrapNumbers o))).
  destruct (truthy payload); simpl; split; try easy.
  unfold convertNumber. destruct (wrapNumbers o); [discriminate|].
  destruct (to_number payload); discriminate.
Qed.

(** X11.  When [toBuffer] returns, it returns a [Buffer] or a [Uint8Array],
    and applying it to its own result changes nothing. *)
Theorem toBuffer_normalises (val b : value) (Hb : toBuffer val = Ok b) :
  (exists t e, b = VBinary t e /\ (t = Buffer \/ t = Uint8Array))
  /\ toBuffer b = Ok b.
Proof.
  assert (K : exists t e, b = VBinary t e /\ (t = Buffer \/ t = Uint8Array)).
  { unfold toBuffer in Hb. destruct (truthy val).
    - simpl in Hb.
      destruct val as [| | | |s| |t e| | | |]; simpl in Hb;
        try discriminate Hb;
        try (injection Hb as <-; eauto).
      destruct t; simpl in Hb; try discriminate Hb;
        injection Hb as <-; eauto.
    - simpl in Hb. injection Hb as <-. eauto. }
  split; [exact K|].
  destruct K as (t & e & -> & [-> | ->]); reflexivity.
Qed.

(** X12.  Unmarshalling a number with [wrapNumbers] loses nothing: the
    wrapper [output] returns for a truthy [N] payload prints as that
    payload, and its [toJSON] (which is [toNumber]) is the number [output]
    returns without [wrapNumbers]. *)
Theorem wrapped_number_agrees (payload : value) (c c' : bool)
    (d d' : DateFormat) (Ht : truthy payload = true) :
  exists w,
    output (attr "N" payload)
      {| convertEmptyValues := c; wrapNumbers := true; dateFormat := d |}
    = Ok w /\
    call_toString w = Ok payload /\
    (n <- NumberValue_toJSON w ;; Ok (VNumber n))
    = output (attr "N" payload)
        {| convertEmptyValues := c'; wrapNumbers := false;
           dateFormat := d' |}.
Proof.
  exists (VNumberValue payload). unfold attr, obj. rewrite !output_cons.
  change (output_key "N" payload
            {| convertEmptyValues := c; wrapNumbers := true;
               dateFormat := d |})
    with (Some (if negb (truthy payload) then Ok VNull
                else convertNumber payload true)).
  change (output_key "N" payload
            {| convertEmptyValues := c'; wrapNumbers := false;
               dateFormat := d' |})
    with (Some (if negb (truthy payload) then Ok VNull
                else convertNumber payload false)).
  rewrite Ht. repeat split.
Qed.

End Unmarshalling.

(** X8 at an attribute with an unknown key, then [S], then [N]. *)
Lemma output_first_recognised_key_witness :
  forallb (fun kv => negb (recognised (fst kv)))
    [("x", VNull (H:=ZHost))] = true /\
  recognised "S" = true /\
  output (H:=ZHost)
    (obj [("x", VNull); ("S", VString "a"); ("N", VString "1")])
    default_options
  = output (attr "S" (VString "a")) default_options.
Proof.
  split; [reflexivity|]. split; [reflexivity|].
  apply (output_first_recognised_key (H:=ZHost) (Some "Object")
           [("x", VNull)] [("N", VString "1")] "S" (VString "a")
           default_options); reflexivity.
Defined.

(** X9 at an attribute whose only key is unknown. *)
Lemma output_no_recognised_key_witness :
  forallb (fun kv => negb (recognised (fst kv)))
    [("$unknown", VString (H:=ZHost) "a")] = true /\
  output (H:=ZHost) (obj [("$unknown", VString "a")]) default_options
  = Ok VUndefined.
Proof.
  split; [reflexivity|].
  apply (output_no_recognised_key (H:=ZHost) (Some "Object")
           [("$unknown", VString "a")] VNull default_options).
  reflexivity.
Defined.

(** X11 at the bytes of a string. *)
Lemma toBuffer_normalises_witness :
  toBuffer (H:=ZHost) (VString "hi") = Ok (VBinary Buffer [104; 105]%Z) /\
  toBuffer (H:=ZHost) (VBinary Buffer [104; 105]%Z)
  = Ok (VBinary Buffer [104; 105]%Z).
Proof.
  split; [reflexivity|].
  apply (toBuffer_normalises (H:=ZHost) (VString "hi")). reflexivity.
Defined.

(** X12 at the string ["12"]. *)
Lemma wrapped_number_agrees_witness :
  truthy (H:=ZHost) (VString "12") = true /\
  exists w,
    output (H:=ZHost) (attr "N" (VString "12"))
      {| convertEmptyValues := false; wrapNumbers := true;
         dateFormat := iso |} = Ok w /\
    call_toString w = Ok (VString "12") /\
    (n <- NumberValue_toJSON w ;; Ok (VNumber n))
    = output (attr "N" (VString "12")) default_options.
Proof.
  split; [reflexivity|].
  apply (wrapped_number_agrees (H:=ZHost) (VString "12") false false iso iso).
  reflexivity.
Defined.

(** ** From attribute to value and back *)

Section AttributeRoundTrip.
Context {H : Host}.

Lemma returns_list o l :
  Forall (returns o) l ->
  exists l', mapM (fun x => output x o) l = Ok l'
             /\ mapM (fun x => input x o) l' = Ok l.
Proof.
  induction 1 as [|a l (v & O & I) _ (l' & E & E')].
  - now exists [].
  - exists (v :: l'). simpl. now rewrite O, E, I, E'.
Qed.

Lemma returns_entries o m :
  Forall (fun kv => returns o (snd kv)) m ->
  exists m', Forall2 (unmarshalled o) m m' /\ Forall2 (marshalled o) m' m.
Proof.
  induction 1 as [|[k a] m (v & O & I) _ (m' & F & F')].
  - exists []. split; constructor.
  - exists ((k, v) :: m'). split; constructor; try assumption; now split.
Qed.

(** an object without the names [wrapperName] and [constructor] is
    classified as [Object] *)
Lemma typeOf_plain (m : list (string * value)) :
  existsb (String.eqb "wrapperName") (map fst m) = false ->
  existsb (String.eqb "constructor") (map fst m) = false ->
  classified (obj m) = true /\ typeOf (obj m) = VString "Object".
Proof.
  intros W C. unfold classified, typeOf, isBinary, constructor_of, obj, get.
  now rewrite (lookup_absent _ m C), (lookup_absent _ m W).
Qed.

(** X13.  With [wrapNumbers] set and [convertEmptyValues] unset, an
    attribute in the declared shape (no set members, no map entry called
    [__proto__], [wrapperName] or [constructor]) survives the way back:
    [output] turns it into a native value that [input] marshals to the very
    same attribute. *)
Theorem attribute_round_trip (a : value) (d : DateFormat)
    (Hc : canonical a = true) :
  exists v,
    output a {| convertEmptyValues := false; wrapNumbers := true;
                dateFormat := d |} = Ok v /\
    input v {| convertEmptyValues := false; wrapNumbers := true;
               dateFormat := d |} = Ok a.
Proof.
  set (o := {| convertEmptyValues := false; wrapNumbers := true;
               dateFormat := d |}).
  change (returns o a). revert Hc.
  induction a as [a IH] using value_size_ind. intros C.
  destruct a as [| | | | | | | | | |[c|] [|[key payload] [|]]];
    try discriminate C.
  cbn [canonical] in C. apply andb_true_iff in C as [Cc C].
  apply String.eqb_eq in Cc. subst c.
  destruct (String.eqb_spec key "S") as [->|_].
  { destruct payload as [| | | |s| | | | | |]; try discriminate C.
    exists (VString s). split; [reflexivity|].
    simpl. now rewrite andb_false_r. }
  destruct (String.eqb_spec key "N") as [->|_].
  { destruct payload as [| | | |s| | | | | |]; try discriminate C.
    exists (VNumberValue (VString s)). split; [|reflexivity].
    unfold obj. rewrite output_cons.
    change (output_key "N" (VString s) o)
      with (Some (if negb (truthy (VString s)) then Ok VNull
                  else convertNumber (VString s) true)).
    cbn [truthy]. unfold nonempty in C. now rewrite C. }
  destruct (String.eqb_spec key "B") as [->|_].
  { destruct payload as [| | | | | |t e| | | |]; try discriminate C.
    exists (VBinary t e).
    destruct t; try discriminate C; split; try reflexivity;
      simpl; now rewrite andb_false_r. }
  destruct (String.eqb_spec key "BOOL") as [->|_].
  { destruct payload as [| |b| | | | | | | |]; try discriminate C.
    exists (VBool b). now destruct b. }
  destruct (String.eqb_spec key "NULL") as [->|_].
  { destruct payload as [| |[|]| | | | | | | |]; try discriminate C.
    now exists VNull. }
  destruct (String.eqb_spec key "L") as [->|_].
  { destruct payload as [| | | | | | | | |l|]; try discriminate C.
    rewrite forallb_forall in C.
    assert (F : Forall (returns o) l).
    { apply Forall_forall. intros x I. apply IH; [|now apply C].
      pose proof (size_element x l I). simpl in *. lia. }
    destruct (returns_list o l F) as (l' & E & E').
    exists (VArray l'). split.
    - unfold obj. rewrite output_cons.
      change (output_key "L" (VArray l) o)
        with (Some (list <- mapM (fun x => output x o) l ;;
                    Ok (VArray list))).
      now rewrite E.
    - now rewrite input_VArray, E'. }
  destruct (String.eqb_spec key "M") as [->|_]; [|discriminate C].
  destruct payload as [| | | | | | | | | |[c'|] m]; try discriminate C.
  rewrite !andb_true_iff in C. destruct C as [[[Cc Cd] Cs] Cm].
  apply String.eqb_eq in Cc. subst c'. apply distinct_NoDup in Cd.
  cbn [forallb special_names] in Cs.
  rewrite !andb_true_iff, !negb_true_iff in Cs.
  destruct Cs as (Cp & Cw & Ck & _).
  pose proof (existsb_eqb_In _ _ Cp) as Cp'.
  rewrite forallb_forall in Cm.
  assert (F : Forall (fun kv => returns o (snd kv)) m).
  { apply Forall_forall. intros [k x] I. apply IH; [|now apply (Cm (k, x))].
    pose proof (size_property k x (Some "Object") m I). simpl in *. lia. }
  destruct (returns_entries o m F) as (m' & F1 & F2).
  assert (K : map fst m' = map fst m).
  { apply (Forall2_keys _ m m' F1). now intros x y [E _]. }
  exists (obj m'). split.
  - unfold obj. rewrite output_cons.
    change (output_key "M" (VObject (Some "Object") m) o)
      with (Some (map <- output_M_loop o m [] ;; Ok (obj map))).
    assert (E : output_M_loop o m [] = Ok m').
    { apply (output_M_loop_spec o m Cp' [] m' Cd). now exists m'. }
    now rewrite E.
  - rewrite <- K in Cw, Ck, Cp', Cd.
    destruct (typeOf_plain m' Cw Ck) as [Tc Tt].
    rewrite (input_unreserved _ o Tc); [|now rewrite Tt].
    unfold obj at 1. rewrite formatMap_object.
    assert (E : formatMap_loop o m' [] = Ok m).
    { apply (formatMap_loop_spec o m' Cp' [] m Cd). now exists m. }
    now rewrite E.
Qed.

End AttributeRoundTrip.

(** X13 at the attribute of a small record. *)
Lemma attribute_round_trip_witness :
  let a := obj [("M", obj [("id", attr "N" (VString "575"));
                           ("tags", attr "L" (VArray [attr "S" (VString "a");
                                                      input_null]));
                           ("ok", attr "BOOL" (VBool false))])] in
  canonical (H:=ZHost) a = true /\
  exists v, output a {| convertEmptyValues := false; wrapNumbers := true;
                        dateFormat := iso |} = Ok v /\
            input v {| convertEmptyValues := false; wrapNumbers := true;
                       dateFormat := iso |} = Ok a.
Proof.
  split; [reflexivity|].
  apply (attribute_round_trip (H:=ZHost)). reflexivity.
Defined.

(** ** Round trip under any options *)

Section RoundTripOptions.
Context {H : Host} {L : HostLaws H}.

Lemma carried_with (o : ConverterOptions) (v : value) :
  convertible v = true ->
  exists a, input v o = Ok a /\ output a o = Ok (restored_with o v).
Proof.
  induction v as [| |b|n|s|d|t e| |w _|l IH|c props IH] using value_rect';
    intros C; try discriminate C.
  - now exists input_null.
  - exists (attr "BOOL" (VBool b)). now destruct b.
  - simpl in C. apply andb_true_iff in C as [Cf Cz].
    apply negb_true_iff in Cz.
    exists (attr "N" (VString (number_toString n))).
    split; [reflexivity|].
    unfold attr, obj. rewrite output_cons.
    change (output_key "N" (VString (number_toString n)) o)
      with (Some (if negb (truthy (VString (number_toString n)))
                  then Ok VNull
                  else convertNumber (VString (number_toString n))
                         (wrapNumbers o))).
    cbn [truthy restored_with].
    destruct (String.eqb_spec (number_toString n) "") as [E|_].
    { now apply number_toString_nonempty in E. }
    simpl. unfold convertNumber. destruct (wrapNumbers o); [reflexivity|].
    simpl. now rewrite (Number_toString_inv n Cf Cz).
  - simpl. destruct (Nat.eqb (String.length s) 0 && convertEmptyValues o).
    + now exists input_null.
    + now exists (attr "S" (VString s)).
  - simpl in C. destruct o as [c w [|]].
    + exists (attr "S" (VString (toISOString d))).
      split; [|reflexivity]. simpl. unfold formatDate. simpl. now rewrite C.
    + exists (attr "S" (VString (number_toString (getUnixTime d)))).
      split; [|reflexivity]. simpl. unfold formatDate. simpl. now rewrite C.
  - assert (T : t = Buffer \/ t = Uint8Array)
      by (destruct t; try discriminate C; auto).
    assert (I : input (VBinary t e) o =
                if has_length t && Nat.eqb (List.length e) 0
                   && convertEmptyValues o
                then Ok input_null else Ok (attr "B" (VBinary t e))).
    { destruct T as [-> | ->]; simpl;
        destruct (_ && convertEmptyValues o); reflexivity. }
    rewrite I. cbn [restored_with].
    destruct (has_length t && Nat.eqb (List.length e) 0
              && convertEmptyValues o).
    + now exists input_null.
    + exists (attr "B" (VBinary t e)). split; [reflexivity|].
      destruct T as [-> | ->]; reflexivity.
  - (* arrays *)
    simpl in C. rewrite forallb_forall in C.
    assert (F : Forall (fun v => exists a, input v o = Ok a
                          /\ output a o = Ok (restored_with o v)) l).
    { rewrite Forall_forall in *. intros x I. now apply IH, C. }
    destruct (carried_list o _ l F) as (l' & E & E').
    exists (attr "L" (VArray l')). rewrite input_VArray, E.
    split; [reflexivity|]. unfold attr, obj. rewrite output_cons.
    change (output_key "L" (VArray l') o)
      with (Some (list <- mapM (fun x => output x o) l' ;;
                  Ok (VArray list))).
    now rewrite E'.
  - (* objects *)
    destruct (convertible_object c props C) as (-> & Cd & Cp & Cc & Cm & Cv).
    assert (F : Forall (fun kv => exists a, input (snd kv) o = Ok a
                          /\ output a o = Ok (restored_with o (snd kv)))
                  props).
    { rewrite Forall_forall in *. intros kv I. now apply IH, Cv. }
    destruct (carried_object o (restored_with o) props Cd Cp Cc Cm F)
      as (M & _ & I & O).
    now exists (attr "M" (obj M)).
Qed.

(** X14.  The round trip under any options.  A record of strings, finite
    numbers other than [-0], booleans, null, valid dates, [Buffer] or
    [Uint8Array] payloads, arrays and plain objects, none with a property
    called [__proto__] and none classified as a reserved type, comes back
    from [unmarshall (marshall R o) o] with the same shape and names, where
    every date is a string in the chosen [dateFormat], every empty string
    and empty payload is [null] if [convertEmptyValues] is set, and every
    number is a wrapper around its printed form if [wrapNumbers] is set. *)
Theorem round_trip_with_options (props : list (string * value))
    (o : ConverterOptions) (Hc : convertible (obj props) = true) :
  round_trip (obj props) o = Ok (restored_with o (obj props)).
Proof.
  destruct (convertible_object _ props Hc) as (_ & Cd & Cp & Cc & Cm & _).
  destruct (carried_with o (obj props) Hc) as (a & I & O).
  unfold round_trip, marshall. rewrite I. simpl.
  rewrite (input_unreserved _ _ Cc Cm) in I.
  unfold obj at 1 in I. rewrite formatMap_object in I.
  destruct (formatMap_loop _ props []) as [M|e]; [|discriminate].
  simpl in I. injection I as <-. exact O.
Qed.

End RoundTripOptions.

(** X14 at the user record with all three options changed. *)
Lemma round_trip_with_options_witness :
  let o := {| convertEmptyValues := true; wrapNumbers := true;
              dateFormat := unix |} in
  convertible user_example = true /\
  round_trip user_example o = Ok (restored_with o user_example).
Proof.
  split; [reflexivity|].
  unfold user_example.
  apply (round_trip_with_options (H:=ZHost) (L:=ZHostLaws)). reflexivity.
Defined.

(** ** The shape of what [output] returns for maps and lists *)

Section Shapes.
Context {H : Host}.

(** X15.  For a map that is a plain object without an entry called
    [__proto__], [output] returns an object for an [M] attribute exactly
    when every entry of the map
    unmarshals, and the object then has the same names in the same order,
    each with the unmarshalled entry; for an [L] attribute it returns a
    list of the same length with the unmarshalled elements in order.
    [unmarshall] is the [M] case. *)
Theorem output_entrywise (m : list (string * value))
    (l : list value) (o : ConverterOptions) (v : value)
    (Hd : NoDup (map fst m)) (Hp : ~ In "__proto__" (map fst m)) :
  (output (attr "M" (obj m)) o = Ok v <->
   exists m', v = obj m' /\ Forall2 (unmarshalled o) m m') /\
  (unmarshall (obj m) o = Ok v <->
   exists m', v = obj m' /\ Forall2 (unmarshalled o) m m') /\
  (output (attr "L" (VArray l)) o = Ok v <->
   exists l', v = VArray l' /\ Forall2 (fun x y => output x o = Ok y) l l').
Proof.
  assert (M : output (attr "M" (obj m)) o = Ok v <->
              exists m', v = obj m' /\ Forall2 (unmarshalled o) m m').
  { unfold attr, obj. rewrite output_cons.
    change (output_key "M" (VObject (Some "Object") m) o)
      with (Some (map <- output_M_loop o m [] ;; Ok (obj map))).
    split.
    - destruct (output_M_loop o m []) as [m'|e] eqn:E; [|discriminate].
      simpl. intros V. injection V as <-.
      apply (output_M_loop_spec o m Hp [] m' Hd) in E as (m0 & -> & F).
      now exists m0.
    - intros (m' & -> & F).
      assert (E : output_M_loop o m [] = Ok m').
      { apply (output_M_loop_spec o m Hp [] m' Hd). now exists m'. }
      now rewrite E. }
  split; [exact M|]. split; [exact M|].
  unfold attr, obj. rewrite output_cons.
  change (output_key "L" (VArray l) o)
    with (Some (list <- mapM (fun x => output x o) l ;; Ok (VArray list))).
  split.
  - destruct (mapM (fun x => output x o) l) as [l'|e] eqn:E; [|discriminate].
    simpl. intros V. injection V as <-. exists l'. split; [reflexivity|].
    now apply mapM_Forall2.
  - intros (l' & -> & F). apply mapM_Forall2 in F. now rewrite F.
Qed.

End Shapes.

(** X15 at a map with a string and a boolean. *)
Lemma output_entrywise_witness :
  NoDup (map fst [("a", attr (H:=ZHost) "S" (VString "x"));
                  ("b", attr "BOOL" (VBool true))]) /\
  ~ In "__proto__" (map fst [("a", attr (H:=ZHost) "S" (VString "x"));
                             ("b", attr "BOOL" (VBool true))]) /\
  unmarshall (obj [("a", attr "S" (VString "x"));
                   ("b", attr "BOOL" (VBool true))]) default_options
  = Ok (obj [("a", VString "x"); ("b", VBool true)]).
Proof.
  assert (N : NoDup (map fst [("a", attr (H:=ZHost) "S" (VString "x"));
                              ("b", attr "BOOL" (VBool true))])).
  { repeat constructor; simpl; intuition discriminate. }
  assert (P : ~ In "__proto__"
                (map fst [("a", attr (H:=ZHost) "S" (VString "x"));
                          ("b", attr "BOOL" (VBool true))])).
  { simpl; intuition discriminate. }
  split; [exact N|]. split; [exact P|].
  apply (output_entrywise (H:=ZHost) _ [] default_options _ N P).
  eexists. split; [reflexivity|]. repeat constructor.
Defined.
